(** * The "ask a question about this document" pipeline of my-tools/CPC99

    A shallow embedding of the two entry points of the repository:
    - the HTTP server ([POST /ask], Express + multer + the OpenAI client),
    - the command-line variant ([processMarkdownAndAsk]),
    and the properties of the request-processing pipeline.

    Conventions of the embedding.
    - A JavaScript string is the list of its UTF-16 code units.
    - A Buffer is a list of bytes.
    - [undefined]/[null] for an optional field is [None].
    - An async function is a computation over the log of calls made to the
      completion provider, which either resolves to a value or throws.
    - [console.log]/[console.error] output is not part of the model. *)

From Stdlib Require Import List NArith ZArith Bool Lia.
From Stdlib.Strings Require Import String Ascii Byte.
From Stdlib Require DecimalString.
From ExtLib Require Import Structures.Monad Structures.MonadExc Data.Monads.OptionMonad.
Import ListNotations.
Import MonadNotation.
Local Open Scope monad_scope.
Local Open Scope N_scope.

(* ===================================================================== *)
(** ** JavaScript strings *)
(* ===================================================================== *)

Module JS.

Definition code_unit := N.
Definition jsstring := list code_unit.

(** [a === b] on strings: the same sequence of code units. *)
Fixpoint strict_eq (a b : jsstring) : bool :=
  match a, b with
  | [], [] => true
  | x :: a', y :: b' => (x =? y) && strict_eq a' b'
  | _, _ => false
  end.

(** ECMAScript WhiteSpace and LineTerminator code points, the set that
    [String.prototype.trim] strips. *)
Definition is_white_space (c : code_unit) : bool :=
  (c =? 0x0009) || (c =? 0x000A) || (c =? 0x000B) || (c =? 0x000C) ||
  (c =? 0x000D) || (c =? 0x0020) || (c =? 0x00A0) || (c =? 0x1680) ||
  ((0x2000 <=? c) && (c <=? 0x200A)) ||
  (c =? 0x2028) || (c =? 0x2029) || (c =? 0x202F) || (c =? 0x205F) ||
  (c =? 0x3000) || (c =? 0xFEFF).

Fixpoint trimStart (s : jsstring) : jsstring :=
  match s with
  | [] => []
  | c :: s' => if is_white_space c then trimStart s' else s
  end.

Definition trimEnd (s : jsstring) : jsstring := rev (trimStart (rev s)).

Definition trim (s : jsstring) : jsstring := trimEnd (trimStart s).

(** Truthiness of an optional string value: [undefined], [null] and the
    empty string are falsy, every other string is truthy. *)
Definition truthy (v : option jsstring) : bool :=
  match v with
  | None => false
  | Some [] => false
  | Some (_ :: _) => true
  end.

(** [a || b] where [b] is a string. *)
Definition or_else (a : option jsstring) (b : jsstring) : jsstring :=
  match a with
  | Some (c :: s) => c :: s
  | _ => b
  end.

(** *** UTF-8 decoding, as [Buffer.prototype.toString('utf-8')] and
    [fs.readFile(_, {encoding: 'utf-8'})] perform it.

    The Node runtime is not part of the repository.  Its documented
    behaviour: data that is not valid UTF-8 is decoded with the
    replacement character U+FFFD standing for each error, and no
    exception is raised.  The decoder below is the UTF-8 decode algorithm
    of the WHATWG Encoding Standard (one U+FFFD per maximal ill-formed
    subsequence), without byte-order-mark removal. *)

Record utf8_state : Type := Utf8State {
  code_point : N;
  bytes_needed : nat;    (* continuation bytes still expected *)
  lower_boundary : N;
  upper_boundary : N
}.

Definition utf8_initial : utf8_state := Utf8State 0 0 0x80 0xBF.

Definition replacement_character : N := 0xFFFD.

(** A byte read while no multi-byte sequence is in progress. *)
Definition utf8_lead (b : N) : list N * utf8_state :=
  if b <=? 0x7F then ([b], utf8_initial)
  else if (0xC2 <=? b) && (b <=? 0xDF) then
    ([], Utf8State (N.land b 0x1F) 1 0x80 0xBF)
  else if (0xE0 <=? b) && (b <=? 0xEF) then
    ([], Utf8State (N.land b 0xF) 2
           (if b =? 0xE0 then 0xA0 else 0x80)
           (if b =? 0xED then 0x9F else 0xBF))
  else if (0xF0 <=? b) && (b <=? 0xF4) then
    ([], Utf8State (N.land b 0x7) 3
           (if b =? 0xF0 then 0x90 else 0x80)
           (if b =? 0xF4 then 0x8F else 0xBF))
  else ([replacement_character], utf8_initial).

Definition utf8_step (st : utf8_state) (b : N) : list N * utf8_state :=
  match bytes_needed st with
  | O => utf8_lead b
  | S k =>
      if (lower_boundary st <=? b) && (b <=? upper_boundary st) then
        let cp := N.lor (N.shiftl (code_point st) 6) (N.land b 0x3F) in
        match k with
        | O => ([cp], utf8_initial)
        | S _ => ([], Utf8State cp k 0x80 0xBF)
        end
      else
        (* error; the byte is handed back and read again as a lead byte *)
        let '(out, st') := utf8_lead b in
        (replacement_character :: out, st')
  end.

Fixpoint utf8_decode (st : utf8_state) (bytes : list N) : list N :=
  match bytes with
  | [] => match bytes_needed st with
          | O => []
          | S _ => [replacement_character]
          end
  | b :: rest =>
      let '(out, st') := utf8_step st b in
      out ++ utf8_decode st' rest
  end.

(** The UTF-16 code units of one code point. *)
Definition utf16_units (cp : N) : jsstring :=
  if cp <? 0x10000 then [cp]
  else let c := cp - 0x10000 in
       [0xD800 + N.shiftr c 10; 0xDC00 + N.land c 0x3FF].

Definition toString_utf8 (buffer : list byte) : jsstring :=
  flat_map utf16_units (utf8_decode utf8_initial (map Byte.to_N buffer)).

(** A byte that occurs in no UTF-8 text: 0xC0, 0xC1 and 0xF5 to 0xFF. *)
Definition never_in_utf8 (b : byte) : bool :=
  let n := Byte.to_N b in
  (n =? 0xC0) || (n =? 0xC1) || (0xF5 <=? n).

(** The invariant of the decoder's states: the boundaries lie within
    0x80..0xBF, so a byte of 0xC0 or more is never taken as a continuation
    byte. *)
Definition boundaries_ok (st : utf8_state) : Prop :=
  0x80 <= lower_boundary st /\ upper_boundary st <= 0xBF.

(** String literals of the source files, which are UTF-8 text. *)
Definition lit (s : string) : jsstring :=
  toString_utf8 (list_byte_of_string s).

End JS.

Import JS.

#[global] Arguments lit : simpl never.
#[global] Arguments toString_utf8 : simpl never.
#[global] Arguments trim : simpl never.

(* ===================================================================== *)
(** ** Errors, the completion provider, asynchronous computations *)
(* ===================================================================== *)

(** The error codes of multer's [MulterError] that the configured upload
    can raise, with multer's message table. *)
Inductive MulterCode : Type :=
| LIMIT_FILE_SIZE
| LIMIT_UNEXPECTED_FILE.

Definition multer_message (c : MulterCode) : jsstring :=
  match c with
  | LIMIT_FILE_SIZE => lit "File too large"
  | LIMIT_UNEXPECTED_FILE => lit "Unexpected field"
  end.

(** A thrown value: a plain [Error] (also the errors of the OpenAI client,
    which extend [Error]) or a [multer.MulterError]. *)
Inductive JsError : Type :=
| Error (message : jsstring)
| MulterError (code : MulterCode).

(** [err.message] *)
Definition message (err : JsError) : jsstring :=
  match err with
  | Error m => m
  | MulterError c => multer_message c
  end.

(** [err instanceof multer.MulterError] *)
Definition instanceof_MulterError (err : JsError) : bool :=
  match err with
  | MulterError _ => true
  | Error _ => false
  end.

(** One entry of [messages] in a chat-completion request. *)
Record ChatMessage : Type := { role : jsstring; content : jsstring }.

(** The argument of [openai.chat.completions.create]. *)
Record ChatRequest : Type := { model : jsstring; messages : list ChatMessage }.

(** The part of the provider's response that the code reads:
    [completion.choices?.[0]?.message?.content]. *)
Record ChoiceMessage : Type := { message_content : option jsstring }.
Record Choice : Type := { choice_message : option ChoiceMessage }.
Record Completion : Type := { choices : option (list Choice) }.

(** What is observable of the outside world: the requests sent to the
    completion provider so far, oldest first. *)
Definition World := list ChatRequest.

(** The completion provider: given everything it was sent before and the
    new request, the promise it returns resolves ([inr]) or rejects
    ([inl]).  It is a parameter of every pipeline function. *)
Definition Provider := World -> ChatRequest -> JsError + Completion.

(** An async computation: runs from a world, resolves or throws, and leaves
    a world.  A throw keeps the calls already made. *)
Definition Async (A : Type) : Type := World -> (JsError + A) * World.

Definition run {A} (c : Async A) (w : World) : (JsError + A) * World := c w.

#[global] Instance Monad_Async : Monad Async := {
  ret := fun A (a : A) w => (inr a, w);
  bind := fun A B (c : Async A) (k : A -> Async B) w =>
    match c w with
    | (inr a, w') => k a w'
    | (inl e, w') => (inl e, w')
    end
}.

(** [throw e] and [try { c } catch (error) { h error }] *)
#[global] Instance Exception_Async : MonadExc JsError Async := {
  raise := fun A (e : JsError) w => (inl e, w);
  catch := fun A (c : Async A) (h : JsError -> Async A) w =>
    match c w with
    | (inr a, w') => (inr a, w')
    | (inl e, w') => h e w'
    end
}.

(** [await openai.chat.completions.create(request)] *)
Definition create (openai : Provider) (request : ChatRequest) : Async Completion :=
  fun w => (openai w request, w ++ [request]).

(** [completion.choices?.[0]?.message?.content]: each [?.] stops at
    [undefined]/[null]; [choices[0]] of an empty array is [undefined]. *)
Definition first_content (completion : Completion) : option jsstring :=
  cs <- choices completion ;;
  c <- hd_error cs ;;
  m <- choice_message c ;;
  message_content m.

(** [completion.choices?.[0]?.message?.content?.trim()] *)
Definition responseContent_of (completion : Completion) : option jsstring :=
  s <- first_content completion ;;
  ret (trim s).

(** The system message, the same literal in both entry points. *)
Definition system_message : ChatMessage :=
  {| role := lit "system";
     content := lit "You are a helpful assistant designed to answer questions based on the provided text context." |}.

Definition nl : jsstring := [0x0A].

(* ===================================================================== *)
(** ** The HTTP server *)
(* ===================================================================== *)

Module Server.

(** *** What arrives: one multipart submission to [POST /ask] *)

(** The file part of the form: what the client declares about it and the
    bytes it carries. *)
Record FilePart : Type := {
  part_originalname : jsstring;
  part_mimetype : jsstring;      (* the declared media type *)
  part_data : list byte
}.

(** The form: the text fields [question] and [model] and the file field
    [markdownFile], each possibly absent. *)
Record Submission : Type := {
  question_field : option jsstring;
  model_field : option jsstring;
  markdownFile : option FilePart
}.

(** *** multer *)

(** The file object that multer's memory storage leaves in [req.file]. *)
Record File : Type := {
  originalname : jsstring;
  mimetype : jsstring;
  buffer : list byte;
  size : N
}.

(** The request as the route handler sees it. *)
Record Request : Type := {
  body_question : option jsstring;   (* req.body.question *)
  body_model : option jsstring;      (* req.body.model *)
  file : option File                 (* req.file *)
}.

Record Limits : Type := { fileSize : N }.

(** The options object given to [multer(...)].  The filter's callback
    [cb(err, accept)] is its result: [inl err] or [inr accept]. *)
Record MulterOptions : Type := {
  limits : Limits;
  fileFilter : FilePart -> JsError + bool
}.

(** [const upload = multer({ storage, limits, fileFilter })] *)
Definition upload : MulterOptions := {|
  limits := {| fileSize := 100 * 1024 * 1024 |};
  fileFilter := fun file =>
    if strict_eq (part_mimetype file) (lit "text/markdown")
       || strict_eq (part_mimetype file) (lit "text/plain")
    then inr true
    else inl (Error (lit "Markdown(.md) 또는 Text(.txt) 파일만 업로드 가능합니다."))
|}.

(** The middleware [multer(options).single('markdownFile')] with memory
    storage.  multer is a dependency, not part of the repository; this is
    its documented behaviour on a form that carries at most the one file
    field: the filter is asked when the file part starts, before its
    bytes are read; a filter error aborts the upload with that error; a
    file longer than [limits.fileSize] bytes ("the max file size (in
    bytes)") aborts it with [MulterError('LIMIT_FILE_SIZE')]; otherwise the text fields are put in
    [req.body], the buffered file in [req.file], and the handler runs. *)
Definition single (options : MulterOptions) (sub : Submission) : JsError + Request :=
  let with_file f :=
    {| body_question := question_field sub;
       body_model := model_field sub;
       file := f |} in
  match markdownFile sub with
  | None => inr (with_file None)
  | Some part =>
      match fileFilter options part with
      | inl err => inl err
      | inr false => inr (with_file None)
      | inr true =>
          let n := N.of_nat (List.length (part_data part)) in
          if fileSize (limits options) <? n
          then inl (MulterError LIMIT_FILE_SIZE)
          else inr (with_file (Some {| originalname := part_originalname part;
                                       mimetype := part_mimetype part;
                                       buffer := part_data part;
                                       size := n |}))
      end
  end.

(** *** Responses *)

(** What [res.status(code).json(object)] sends; [res.json(object)] alone
    sends it with status 200.  The object is its list of properties. *)
Record Response : Type := {
  status : N;
  body : list (string * jsstring)
}.

Definition res_status_json (code : N) (object : list (string * jsstring)) : Response :=
  {| status := code; body := object |}.

Definition res_json (object : list (string * jsstring)) : Response :=
  res_status_json 200 object.

(** *** The prompt template of the handler *)

Definition finalPrompt (markdownContext question : jsstring) : jsstring :=
  lit "주어진 마크다운 내용을 바탕으로 다음 질문에 답해주세요." ++ nl ++
  nl ++
  lit "--- 마크다운 내용 시작 ---" ++ nl ++
  markdownContext ++ nl ++
  lit "--- 마크다운 내용 끝 ---" ++ nl ++
  nl ++
  lit "질문: " ++ question ++ nl.

(** *** [app.post('/ask', upload.single('markdownFile'), async (req, res) => ...)] *)

Definition ask_handler (openai : Provider) (req : Request) : Async Response :=
  let question := body_question req in
  let file := file req in
  let model := or_else (body_model req) (lit "gpt-3.5-turbo") in
  match question with
  | None | Some [] =>          (* if (!question) *)
      ret (res_status_json 400 [("error"%string, lit "질문을 입력해주세요.")])
  | Some question =>
      match file with
      | None =>                (* if (!file) *)
          ret (res_status_json 400
                 [("error"%string, lit "마크다운 또는 텍스트 파일을 업로드해주세요.")])
      | Some file =>
          catch
            (let markdownContext := toString_utf8 (buffer file) in
             let finalPrompt := finalPrompt markdownContext question in
             completion <- create openai
               {| model := model;
                  messages := [ system_message;
                                {| role := lit "user"; content := finalPrompt |} ] |} ;;
             let responseContent := responseContent_of completion in
             match responseContent with
             | None | Some [] =>        (* if (!responseContent) *)
                 raise (Error (lit "API로부터 빈 응답을 받았습니다."))
             | Some responseContent =>
                 ret (res_json [("answer"%string, responseContent)])
             end)
            (fun error =>
               ret (res_status_json 500
                      [("error"%string, lit "처리 중 오류 발생: " ++ message error)]))
      end
  end.

(** *** The error-handling middleware [app.use((err, req, res, next) => ...)]

    Express calls it only with an error, so the last branch of the
    source ([next()] when [err] is falsy) is not reached. *)
Definition error_middleware (err : JsError) : Response :=
  if instanceof_MulterError err
  then res_status_json 400 [("error"%string, lit "파일 업로드 오류: " ++ message err)]
  else res_status_json 400 [("error"%string, message err)].

(** *** The route: the upload middleware, then the handler; an error of
    the upload middleware goes to the error-handling middleware. *)
Definition post_ask (openai : Provider) (sub : Submission) : Async Response :=
  match single upload sub with
  | inl err => ret (error_middleware err)
  | inr req => ask_handler openai req
  end.

End Server.

(* ===================================================================== *)
(** ** The command-line entry point *)
(* ===================================================================== *)

Module Cli.

(** The file system as the program uses it: [fs.readFile(path)] gives the
    bytes of a file or fails; [fs.mkdir(dirname(path), {recursive})]
    followed by [fs.writeFile(path, text)] succeeds or fails. *)
Record FileSystem : Type := {
  readFile : jsstring -> JsError + list byte;
  mkdir_writeFile : jsstring -> jsstring -> option JsError
}.

(** How a run ends: [process.exit(code)], or the normal end after the
    answer was saved (exit status 0). *)
Inductive Outcome : Type :=
| ProcessExit (code : N)
| Saved (outputFile : jsstring) (text : jsstring).

(** The option [model] of the yargs configuration: [default:
    'gpt-3.5-turbo'] is used when the option is not given. *)
Definition argv_model (given : option jsstring) : jsstring :=
  match given with
  | Some m => m
  | None => lit "gpt-3.5-turbo"
  end.

(** The prompt template of [processMarkdownAndAsk].  The template
    interpolates [markdownContext] only. *)
Definition finalPrompt (markdownContext : jsstring) : jsstring :=
  nl ++
  lit "--- 마크다운 내용 시작 ---" ++ nl ++
  markdownContext ++ nl ++
  lit "--- 마크다운 내용 끝 ---" ++ nl ++
  lit "주어진 마크다운에 해당하는 문제를 C99로 작성해줘" ++ nl.

(** [async function processMarkdownAndAsk(question, inputFile, outputFile, model)];
    [apiKey] is [process.env.OPENAI_API_KEY]. *)
Definition processMarkdownAndAsk (apiKey : option jsstring) (fs : FileSystem)
    (openai : Provider) (question inputFile outputFile model : jsstring)
  : Async Outcome :=
  if negb (truthy apiKey) then ret (ProcessExit 1)
  else
    match readFile fs inputFile with
    | inl _ => ret (ProcessExit 1)
    | inr bytes =>
        let markdownContext := toString_utf8 bytes in
        let finalPrompt := finalPrompt markdownContext in
        called <-
          catch
            (completion <- create openai
               {| model := model;
                  messages := [ system_message;
                                {| role := lit "user"; content := finalPrompt |} ] |} ;;
             match responseContent_of completion with
             | None | Some [] => ret (inl (ProcessExit 1))   (* if (!responseContent) *)
             | Some responseContent => ret (inr responseContent)
             end)
            (fun _ => ret (inl (ProcessExit 1))) ;;
        match called with
        | inl exited => ret exited
        | inr responseContent =>
            match mkdir_writeFile fs outputFile responseContent with
            | Some _ => ret (ProcessExit 1)
            | None => ret (Saved outputFile responseContent)
            end
        end
    end.

End Cli.

(* ===================================================================== *)
(** ** The browser page ([public/script.js]) *)
(* ===================================================================== *)

Module Browser.

(** A file chosen in the file input: [File.name], [File.type] and the
    bytes of the file. *)
Record BrowserFile : Type := {
  file_name : jsstring;
  file_type : jsstring;
  file_bytes : list byte
}.

(** The state of the seven elements that the script looks up. *)
Record Page : Type := {
  questionInput_value : jsstring;
  fileInput_files : list BrowserFile;
  fileName_textContent : jsstring;
  modelSelect_value : jsstring;
  submitBtn_disabled : bool;
  status_textContent : jsstring;
  status_className : jsstring;
  outputArea_textContent : jsstring
}.

(** Assignments to single properties. *)
Definition set_fileName (page : Page) (text : jsstring) : Page :=
  {| questionInput_value := questionInput_value page;
     fileInput_files := fileInput_files page;
     fileName_textContent := text;
     modelSelect_value := modelSelect_value page;
     submitBtn_disabled := submitBtn_disabled page;
     status_textContent := status_textContent page;
     status_className := status_className page;
     outputArea_textContent := outputArea_textContent page |}.

Definition set_disabled (page : Page) (disabled : bool) : Page :=
  {| questionInput_value := questionInput_value page;
     fileInput_files := fileInput_files page;
     fileName_textContent := fileName_textContent page;
     modelSelect_value := modelSelect_value page;
     submitBtn_disabled := disabled;
     status_textContent := status_textContent page;
     status_className := status_className page;
     outputArea_textContent := outputArea_textContent page |}.

Definition set_output (page : Page) (text : jsstring) : Page :=
  {| questionInput_value := questionInput_value page;
     fileInput_files := fileInput_files page;
     fileName_textContent := fileName_textContent page;
     modelSelect_value := modelSelect_value page;
     submitBtn_disabled := submitBtn_disabled page;
     status_textContent := status_textContent page;
     status_className := status_className page;
     outputArea_textContent := text |}.

(** [function showStatus(message, type = 'info')]; every call of the
    script passes both arguments. *)
Definition showStatus (page : Page) (message type : jsstring) : Page :=
  {| questionInput_value := questionInput_value page;
     fileInput_files := fileInput_files page;
     fileName_textContent := fileName_textContent page;
     modelSelect_value := modelSelect_value page;
     submitBtn_disabled := submitBtn_disabled page;
     status_textContent := message;
     status_className := lit "status-message " ++ type;
     outputArea_textContent := outputArea_textContent page |}.

(** [fileInput.addEventListener('change', ...)] *)
Definition fileInput_change (page : Page) : Page :=
  match fileInput_files page with
  | f :: _ => set_fileName page (file_name f)      (* files.length > 0 *)
  | [] => set_fileName page (lit "선택된 파일 없음")
  end.

(** A [FormData]: its entries in the order of the [append] calls. *)
Inductive FormValue : Type :=
| TextValue (text : jsstring)
| FileValue (f : BrowserFile).

Definition FormData := list (string * FormValue).

(** A parsed JSON object whose property values are strings, as in every
    body that the server sends.  [property object key] is [object.key]:
    [None] when the key is absent; the last entry wins, as in
    [JSON.parse]. *)
Definition JsonObject := list (string * jsstring).

Fixpoint property (object : JsonObject) (key : string) : option jsstring :=
  match object with
  | [] => None
  | (k, v) :: rest =>
      match property rest key with
      | Some later => Some later
      | None => if String.eqb k key then Some v else None
      end
  end.

(** What [fetch] resolves to: [response.status], [response.statusText],
    and what [response.json()] does, resolve to the parsed body or reject. *)
Record FetchResponse : Type := {
  fetch_status : N;
  fetch_statusText : jsstring;
  fetch_json : JsError + JsonObject
}.

(** [response.ok]: the status is in the range 200 to 299. *)
Definition ok (response : FetchResponse) : bool :=
  (200 <=? fetch_status response) && (fetch_status response <=? 299).

(** [fetch('/ask', { method: 'POST', body: formData })]: resolves to a
    response, or rejects when the request cannot be made. *)
Definition Fetch := FormData -> Async FetchResponse.

(** A status code inside a template literal: its decimal digits. *)
Definition Number_toString (n : N) : jsstring :=
  lit (DecimalString.NilZero.string_of_uint (N.to_uint n)).

(** [element.textContent = value] for a string or [undefined]: the latter
    leaves the element empty. *)
Definition textContent_of (value : option jsstring) : jsstring :=
  match value with
  | Some text => text
  | None => []
  end.

(** [submitBtn.addEventListener('click', async () => ...)] *)
Definition submitBtn_click (fetch : Fetch) (page : Page) : Async Page :=
  let question := trim (questionInput_value page) in
  let file := hd_error (fileInput_files page) in
  let selectedModel := modelSelect_value page in
  match question with
  | [] =>                      (* if (!question) *)
      ret (showStatus page (lit "질문을 입력해주세요.") (lit "error"))
  | _ :: _ =>
      match file with
      | None =>                (* if (!file) *)
          ret (showStatus page (lit "마크다운 또는 텍스트 파일을 선택해주세요.") (lit "error"))
      | Some file =>
          let page := showStatus page (lit "요청 처리 중...") (lit "loading") in
          let page := set_disabled page true in
          let page := set_output page [] in
          let formData : FormData :=
            [ ("question"%string, TextValue question);
              ("markdownFile"%string, FileValue file);
              ("model"%string, TextValue selectedModel) ] in
          page <-
            catch
              (response <- fetch formData ;;
               if negb (ok response) then
                 let errorData :=
                   match fetch_json response with
                   | inr object => object
                   | inl _ =>            (* .catch(() => ({ error: ... })) *)
                       [("error"%string,
                         lit "HTTP 오류: " ++ Number_toString (fetch_status response) ++
                         lit " " ++ fetch_statusText response)]
                   end in
                 raise (Error (or_else (property errorData "error")
                                 (lit "HTTP 오류: " ++ Number_toString (fetch_status response))))
               else
                 match fetch_json response with
                 | inl error => raise error
                 | inr result =>
                     let page := set_output page (textContent_of (property result "answer")) in
                     ret (showStatus page (lit "답변 생성 완료!") (lit "success"))
                 end)
              (fun error =>
                 let page := set_output page [] in
                 ret (showStatus page (lit "오류 발생: " ++ message error) (lit "error"))) ;;
          ret (set_disabled page false)       (* finally *)
      end
  end.

End Browser.

(* ===================================================================== *)
(** ** The page talking to the server *)
(* ===================================================================== *)

Module Http.
Import Server Browser.

(** The first text entry and the first file entry of a form under a name. *)
Fixpoint form_text (formData : FormData) (name : string) : option jsstring :=
  match formData with
  | [] => None
  | (k, TextValue text) :: rest =>
      if String.eqb k name then Some text else form_text rest name
  | (_, FileValue _) :: rest => form_text rest name
  end.

Fixpoint form_file (formData : FormData) (name : string) : option BrowserFile :=
  match formData with
  | [] => None
  | (k, FileValue f) :: rest =>
      if String.eqb k name then Some f else form_file rest name
  | (_, TextValue _) :: rest => form_file rest name
  end.

(** The multipart body that the browser makes of a form, as the server
    reads it.  The file part is sent under the file's name with its type
    as declared media type, and with [application/octet-stream] when the
    file has no type. *)
Definition submission_of (formData : FormData) : Submission :=
  {| question_field := form_text formData "question";
     model_field := form_text formData "model";
     markdownFile :=
       match form_file formData "markdownFile" with
       | None => None
       | Some f =>
           Some {| part_originalname := file_name f;
                   part_mimetype :=
                     match file_type f with
                     | [] => lit "application/octet-stream"
                     | _ :: _ => file_type f
                     end;
                   part_data := file_bytes f |}
       end |}.

(** [fetch] against this server: the response carries the server's status
    and its JSON body.  The status text is the transport's and is left
    open. *)
Definition fetch_ask (statusText_of : N -> jsstring) (openai : Provider) : Fetch :=
  fun formData =>
    response <- post_ask openai (submission_of formData) ;;
    ret {| fetch_status := status response;
           fetch_statusText := statusText_of (status response);
           fetch_json := inr (body response) |}.

End Http.

(* ===================================================================== *)
(** ** The vocabulary of the specification, over the server's data *)
(* ===================================================================== *)

Module Pipeline.
Import Server.

(** The byte length of the uploaded file. *)
Definition byte_length (part : FilePart) : N := N.of_nat (List.length (part_data part)).

(** The declared media type is exactly [text/markdown] or [text/plain]. *)
Definition accepted_type (part : FilePart) : Prop :=
  part_mimetype part = lit "text/markdown" \/ part_mimetype part = lit "text/plain".

(** The three response shapes: status 400, 500 and 200. *)
Definition client_fault (message : jsstring) : Response :=
  {| status := 400; body := [("error"%string, message)] |}.

Definition server_fault (message : jsstring) : Response :=
  {| status := 500; body := [("error"%string, message)] |}.

Definition success (answer : jsstring) : Response :=
  {| status := 200; body := [("answer"%string, answer)] |}.

(** A request to the provider: the system message and one user message. *)
Definition chat_request (model prompt : jsstring) : ChatRequest :=
  {| model := model;
     messages := [ system_message; {| role := lit "user"; content := prompt |} ] |}.

(** A submission that passes every check: a non-empty question and a file
    of an accepted declared type within the size ceiling. *)
Definition validated (sub : Submission) (part : FilePart) (question : jsstring) : Prop :=
  question_field sub = Some question /\ question <> [] /\
  markdownFile sub = Some part /\ accepted_type part /\
  byte_length part <= 100 * 1024 * 1024.

(** The upload middleware lets the submission through: there is no file,
    or a file of an accepted declared type within the size ceiling. *)
Definition upload_passes (sub : Submission) : Prop :=
  match markdownFile sub with
  | None => True
  | Some part => accepted_type part /\ byte_length part <= 100 * 1024 * 1024
  end.

End Pipeline.

(* ===================================================================== *)
(** ** Scenarios: stub providers and sample submissions *)
(* ===================================================================== *)

Module Scenario.
Import Server.

(** A provider whose every response has one choice with the given text. *)
Definition stub (text : jsstring) : Provider :=
  fun _ _ =>
    inr {| choices :=
             Some [ {| choice_message := Some {| message_content := Some text |} |} ] |}.

(** A provider whose every response has no choice. *)
Definition stub_no_choice : Provider :=
  fun _ _ => inr {| choices := Some [] |}.

(** The bytes of the document ["# Title\nBody text."]. *)
Definition document : list byte :=
  list_byte_of_string "# Title" ++ [x0a] ++ list_byte_of_string "Body text.".

Definition markdown_part (data : list byte) : FilePart :=
  {| part_originalname := lit "notes.md";
     part_mimetype := lit "text/markdown";
     part_data := data |}.

Definition pdf_part (data : list byte) : FilePart :=
  {| part_originalname := lit "notes.pdf";
     part_mimetype := lit "application/pdf";
     part_data := data |}.

Definition png_part (data : list byte) : FilePart :=
  {| part_originalname := lit "notes.png";
     part_mimetype := lit "image/png";
     part_data := data |}.

Definition submission (question : option jsstring) (part : option FilePart) : Submission :=
  {| question_field := question; model_field := None; markdownFile := part |}.

Definition what_does_this_do : jsstring := lit "What does this do?".

(** A file of 100 MB and one byte. *)
Definition oversize_data : list byte := repeat x00 (N.to_nat (100 * 1024 * 1024 + 1)).

(** A file of exactly 100 MB. *)
Definition ceiling_data : list byte := repeat x00 (N.to_nat (100 * 1024 * 1024)).

(** [haystack.includes(needle)] *)
Fixpoint starts_with (needle s : jsstring) : bool :=
  match needle, s with
  | [], _ => true
  | x :: needle', y :: s' => (x =? y) && starts_with needle' s'
  | _ :: _, [] => false
  end.

Fixpoint includes (haystack needle : jsstring) : bool :=
  starts_with needle haystack ||
  match haystack with
  | [] => false
  | _ :: rest => includes rest needle
  end.

(** A submission with its [model] field replaced. *)
Definition with_model (sub : Submission) (m : option jsstring) : Submission :=
  {| question_field := question_field sub;
     model_field := m;
     markdownFile := markdownFile sub |}.

(** A file system in which every path reads as the given bytes and every
    write succeeds. *)
Definition fs_with (data : list byte) : Cli.FileSystem :=
  {| Cli.readFile := fun _ => inr data;
     Cli.mkdir_writeFile := fun _ _ => None |}.

End Scenario.

(* ===================================================================== *)
(** ** More scenarios: providers, pages and transports *)
(* ===================================================================== *)

Module Sample.
Import Server Browser Scenario.

(** A provider that settles every call with the given result. *)
Definition settling (result : JsError + Completion) : Provider :=
  fun _ _ => result.

(** A completion whose first choice has the given text. *)
Definition completion_with (text : jsstring) : Completion :=
  {| choices :=
       Some [ {| choice_message := Some {| message_content := Some text |} |} ] |}.

(** A page with the given question typed in and the given files chosen. *)
Definition page_with (question : jsstring) (files : list BrowserFile) : Page :=
  {| questionInput_value := question;
     fileInput_files := files;
     fileName_textContent := lit "선택된 파일 없음";
     modelSelect_value := lit "gpt-4";
     submitBtn_disabled := false;
     status_textContent := [];
     status_className := lit "status-message";
     outputArea_textContent := lit "an earlier answer" |}.

Definition notes_md : BrowserFile :=
  {| file_name := lit "notes.md";
     file_type := lit "text/markdown";
     file_bytes := document |}.

(** A file for which the browser knows no type. *)
Definition notes_untyped : BrowserFile :=
  {| file_name := lit "notes.markdown";
     file_type := [];
     file_bytes := document |}.

(** A [fetch] that resolves to the given response, and one that rejects. *)
Definition fetch_resolving (response : FetchResponse) : Fetch :=
  fun _ => ret response.

Definition fetch_rejecting (error : JsError) : Fetch :=
  fun _ => raise error.

(** The page after a click that ended in an error: the inputs and the
    file name as they were, the button enabled, the status "오류 발생: "
    and the reason in the class [error], the output empty. *)
Definition showing_error (page : Page) (reason : jsstring) : Page :=
  {| questionInput_value := questionInput_value page;
     fileInput_files := fileInput_files page;
     fileName_textContent := fileName_textContent page;
     modelSelect_value := modelSelect_value page;
     submitBtn_disabled := false;
     status_textContent := lit "오류 발생: " ++ reason;
     status_className := lit "status-message error";
     outputArea_textContent := [] |}.

(** The page after a click that ended with an answer. *)
Definition showing_answer (page : Page) (answer : jsstring) : Page :=
  {| questionInput_value := questionInput_value page;
     fileInput_files := fileInput_files page;
     fileName_textContent := fileName_textContent page;
     modelSelect_value := modelSelect_value page;
     submitBtn_disabled := false;
     status_textContent := lit "답변 생성 완료!";
     status_className := lit "status-message success";
     outputArea_textContent := answer |}.

(** The form that a click sends. *)
Definition form_of (page : Page) (file : BrowserFile) : FormData :=
  [ ("question"%string, TextValue (trim (questionInput_value page)));
    ("markdownFile"%string, FileValue file);
    ("model"%string, TextValue (modelSelect_value page)) ].

(** A transport without status texts. *)
Definition no_statusText : N -> jsstring := fun _ => [].

End Sample.

(* ===================================================================== *)
(** ** Facts about strings *)
(* ===================================================================== *)

Module JSFacts.

Lemma strict_eq_true_iff (a b : jsstring) : strict_eq a b = true <-> a = b.
Proof.
  revert b; induction a as [|x a IH]; intros [|y b]; simpl; split;
    try congruence; try reflexivity.
  - rewrite andb_true_iff, N.eqb_eq, IH. intros [-> ->]; reflexivity.
  - intros E; injection E as -> ->.
    rewrite N.eqb_refl. apply IH. reflexivity.
Qed.

Lemma strict_eq_false_iff (a b : jsstring) : strict_eq a b = false <-> a <> b.
Proof.
  rewrite <- strict_eq_true_iff. destruct (strict_eq a b); split; congruence.
Qed.

Lemma strict_eq_refl (a : jsstring) : strict_eq a a = true.
Proof. apply strict_eq_true_iff; reflexivity. Qed.

(** [trimStart] removes a whitespace prefix and stops at the first code
    unit that is not whitespace. *)
Lemma trimStart_prefix (s : jsstring) :
  exists l, s = l ++ trimStart s /\ forallb is_white_space l = true.
Proof.
  induction s as [|c s [l [E W]]]; simpl.
  - exists []; split; reflexivity.
  - destruct (is_white_space c) eqn:Hc.
    + exists (c :: l); simpl. rewrite Hc, W. split; [congruence | reflexivity].
    + exists []; split; reflexivity.
Qed.

Lemma trimStart_head (s : jsstring) c t :
  trimStart s = c :: t -> is_white_space c = false.
Proof.
  induction s as [|d s IH]; simpl; [discriminate|].
  destruct (is_white_space d) eqn:Hd; [exact IH|].
  intros E; injection E as -> _; exact Hd.
Qed.

Lemma trimStart_nil_iff (s : jsstring) :
  trimStart s = [] <-> forallb is_white_space s = true.
Proof.
  induction s as [|c s IH]; simpl; [tauto|].
  destruct (is_white_space c); simpl; [exact IH|].
  split; discriminate.
Qed.

Lemma forallb_rev {A} (f : A -> bool) (l : list A) :
  forallb f (rev l) = forallb f l.
Proof.
  induction l as [|a l IH]; simpl; [reflexivity|].
  rewrite forallb_app, IH; simpl. rewrite andb_true_r. apply andb_comm.
Qed.

Lemma trimEnd_suffix (s : jsstring) :
  exists r, s = trimEnd s ++ r /\ forallb is_white_space r = true.
Proof.
  unfold trimEnd. destruct (trimStart_prefix (rev s)) as [l [E W]].
  exists (rev l). split.
  - rewrite <- rev_app_distr, <- E, rev_involutive. reflexivity.
  - rewrite forallb_rev. exact W.
Qed.

Lemma trimEnd_nil_iff (s : jsstring) :
  trimEnd s = [] <-> forallb is_white_space s = true.
Proof.
  unfold trimEnd. rewrite <- (forallb_rev _ s), <- trimStart_nil_iff.
  split; intros H.
  - apply (f_equal (@rev _)) in H. rewrite rev_involutive in H. exact H.
  - rewrite H; reflexivity.
Qed.

(** The trimmed text is empty exactly when the text is empty or all
    whitespace. *)
Lemma trim_nil_iff (s : jsstring) :
  trim s = [] <-> forallb is_white_space s = true.
Proof.
  unfold trim. rewrite trimEnd_nil_iff, <- (trimStart_nil_iff s).
  destruct (trimStart s) as [|c t] eqn:E; [simpl; tauto|].
  pose proof (trimStart_head _ _ _ E) as Hc. simpl. rewrite Hc. simpl.
  split; discriminate.
Qed.

(** [trim s] is [s] without a whitespace prefix and a whitespace suffix. *)
Lemma trim_surrounding (s : jsstring) :
  exists l r, s = l ++ trim s ++ r /\
              forallb is_white_space l = true /\
              forallb is_white_space r = true.
Proof.
  destruct (trimStart_prefix s) as [l [El Wl]].
  destruct (trimEnd_suffix (trimStart s)) as [r [Er Wr]].
  exists l, r. unfold trim. rewrite <- Er. auto.
Qed.

(** A non-empty trimmed text begins and ends with a code unit that is not
    whitespace. *)
Lemma trim_first (s : jsstring) c t :
  trim s = c :: t -> is_white_space c = false.
Proof.
  intros E. destruct (trimEnd_suffix (trimStart s)) as [r [Er _]].
  fold (trim s) in Er. rewrite E in Er. simpl in Er.
  exact (trimStart_head _ _ _ Er).
Qed.

Lemma trim_last (s : jsstring) t c :
  trim s = t ++ [c] -> is_white_space c = false.
Proof.
  unfold trim, trimEnd. intros E.
  apply (f_equal (@rev _)) in E.
  rewrite rev_involutive, rev_app_distr in E. simpl in E.
  exact (trimStart_head _ _ _ E).
Qed.

End JSFacts.


(* ===================================================================== *)
(** ** Facts about the HTTP pipeline *)
(* ===================================================================== *)

Module ServerFacts.
Import Server Pipeline JSFacts.

(** The configured ceiling is 100 MB = 104857600 bytes. *)
Lemma fileSize_upload : fileSize (limits upload) = 104857600.
Proof. reflexivity. Qed.

Lemma fileFilter_accepts (part : FilePart) :
  accepted_type part -> fileFilter upload part = inr true.
Proof.
  unfold accepted_type, upload; simpl. intros [-> | ->].
  - rewrite strict_eq_refl. reflexivity.
  - rewrite strict_eq_refl, orb_true_r. reflexivity.
Qed.

Lemma fileFilter_rejects (part : FilePart) :
  part_mimetype part <> lit "text/markdown" ->
  part_mimetype part <> lit "text/plain" ->
  fileFilter upload part =
    inl (Error (lit "Markdown(.md) 또는 Text(.txt) 파일만 업로드 가능합니다.")).
Proof.
  intros H1 H2. unfold upload; simpl.
  apply strict_eq_false_iff in H1, H2. rewrite H1, H2. reflexivity.
Qed.

(** What the upload middleware does, case by case. *)
Lemma single_no_file (sub : Submission) :
  markdownFile sub = None ->
  single upload sub =
    inr {| body_question := question_field sub;
           body_model := model_field sub;
           file := None |}.
Proof. intros H. unfold single. rewrite H. reflexivity. Qed.

Lemma single_rejected_type (sub : Submission) (part : FilePart) :
  markdownFile sub = Some part ->
  part_mimetype part <> lit "text/markdown" ->
  part_mimetype part <> lit "text/plain" ->
  single upload sub =
    inl (Error (lit "Markdown(.md) 또는 Text(.txt) 파일만 업로드 가능합니다.")).
Proof.
  intros H H1 H2. unfold single. rewrite H, (fileFilter_rejects _ H1 H2).
  reflexivity.
Qed.

Lemma single_too_large (sub : Submission) (part : FilePart) :
  markdownFile sub = Some part ->
  accepted_type part ->
  100 * 1024 * 1024 < byte_length part ->
  single upload sub = inl (MulterError LIMIT_FILE_SIZE).
Proof.
  intros H Ht Hs. unfold single. rewrite H, (fileFilter_accepts _ Ht).
  rewrite fileSize_upload. fold (byte_length part).
  apply N.ltb_lt in Hs. change (100 * 1024 * 1024) with 104857600 in Hs.
  rewrite Hs. reflexivity.
Qed.

Lemma single_accepted (sub : Submission) (part : FilePart) :
  markdownFile sub = Some part ->
  accepted_type part ->
  byte_length part <= 100 * 1024 * 1024 ->
  single upload sub =
    inr {| body_question := question_field sub;
           body_model := model_field sub;
           file := Some {| originalname := part_originalname part;
                           mimetype := part_mimetype part;
                           buffer := part_data part;
                           size := byte_length part |} |}.
Proof.
  intros H Ht Hs. unfold single. rewrite H, (fileFilter_accepts _ Ht).
  rewrite fileSize_upload. fold (byte_length part).
  assert (E : (104857600 <? byte_length part) = false).
  { apply N.ltb_ge. exact Hs. }
  rewrite E. reflexivity.
Qed.

Section WithProvider.
Variable openai : Provider.

(** The handler on a request without a usable question. *)
Lemma ask_handler_no_question (req : Request) (w : World) :
  truthy (body_question req) = false ->
  run (ask_handler openai req) w =
    (inr (client_fault (lit "질문을 입력해주세요.")), w).
Proof.
  unfold ask_handler. destruct (body_question req) as [[|c q]|]; simpl;
    try discriminate; reflexivity.
Qed.

(** The handler on a request with a question and no file. *)
Lemma ask_handler_no_file (req : Request) (w : World) :
  truthy (body_question req) = true ->
  file req = None ->
  run (ask_handler openai req) w =
    (inr (client_fault (lit "마크다운 또는 텍스트 파일을 업로드해주세요.")), w).
Proof.
  unfold ask_handler. intros Hq Hf. rewrite Hf.
  destruct (body_question req) as [[|c q]|]; simpl in *;
    try discriminate; reflexivity.
Qed.

(** The handler on a request with a question and a file: one call of the
    provider, and the response read off its result. *)
Lemma ask_handler_calls (req : Request) (f : File) (c : code_unit) (q : jsstring) (w : World) :
  body_question req = Some (c :: q) ->
  file req = Some f ->
  let request :=
    chat_request (or_else (body_model req) (lit "gpt-3.5-turbo"))
                 (finalPrompt (toString_utf8 (buffer f)) (c :: q)) in
  run (ask_handler openai req) w =
    (inr match openai w request with
         | inl error => server_fault (lit "처리 중 오류 발생: " ++ message error)
         | inr completion =>
             match first_content completion with
             | None => server_fault (lit "처리 중 오류 발생: API로부터 빈 응답을 받았습니다.")
             | Some text =>
                 if forallb is_white_space text
                 then server_fault (lit "처리 중 오류 발생: API로부터 빈 응답을 받았습니다.")
                 else success (trim text)
             end
         end,
     w ++ [request]).
Proof.
  intros Hq Hf request. unfold ask_handler. rewrite Hq, Hf.
  unfold run, catch, bind, ret, raise; simpl. unfold create.
  fold (chat_request (or_else (body_model req) (lit "gpt-3.5-turbo"))
                     (finalPrompt (toString_utf8 (buffer f)) (c :: q))).
  fold request.
  destruct (openai w request) as [error | completion]; [reflexivity|].
  unfold responseContent_of; simpl.
  destruct (first_content completion) as [text|]; [|reflexivity].
  destruct (trim text) as [|d t] eqn:E.
  - apply trim_nil_iff in E. rewrite E. reflexivity.
  - assert (W : forallb is_white_space text = false).
    { destruct (forallb is_white_space text) eqn:W; [|reflexivity].
      apply trim_nil_iff in W. congruence. }
    rewrite W. reflexivity.
Qed.

(** The whole route on a validated submission. *)
Lemma post_ask_validated (sub : Submission) (part : FilePart) (q : jsstring) (w : World) :
  validated sub part q ->
  let request :=
    chat_request (or_else (model_field sub) (lit "gpt-3.5-turbo"))
                 (finalPrompt (toString_utf8 (part_data part)) q) in
  run (post_ask openai sub) w =
    (inr match openai w request with
         | inl error => server_fault (lit "처리 중 오류 발생: " ++ message error)
         | inr completion =>
             match first_content completion with
             | None => server_fault (lit "처리 중 오류 발생: API로부터 빈 응답을 받았습니다.")
             | Some text =>
                 if forallb is_white_space text
                 then server_fault (lit "처리 중 오류 발생: API로부터 빈 응답을 받았습니다.")
                 else success (trim text)
             end
         end,
     w ++ [request]).
Proof.
  intros (Hq & Hne & Hf & Ht & Hs) request.
  unfold post_ask. rewrite (single_accepted _ _ Hf Ht Hs).
  destruct q as [|c q]; [congruence|].
  set (f := {| originalname := part_originalname part;
               mimetype := part_mimetype part;
               buffer := part_data part;
               size := byte_length part |}).
  set (req := {| body_question := question_field sub;
                 body_model := model_field sub;
                 file := Some f |}).
  exact (@ask_handler_calls req f c q w Hq eq_refl).
Qed.

(** The route when the upload middleware fails. *)
Lemma post_ask_upload_error (sub : Submission) (err : JsError) (w : World) :
  single upload sub = inl err ->
  run (post_ask openai sub) w = (inr (error_middleware err), w).
Proof. intros H. unfold post_ask. rewrite H. reflexivity. Qed.

End WithProvider.

End ServerFacts.

(* ===================================================================== *)
(** ** The properties of the pipeline *)
(* ===================================================================== *)

Import Server Pipeline Scenario JSFacts ServerFacts.

(** The sample files: their sizes, without building them. *)
Lemma byte_length_oversize (mk : list byte -> FilePart) :
  part_data (mk oversize_data) = oversize_data ->
  byte_length (mk oversize_data) = 100 * 1024 * 1024 + 1.
Proof.
  intros E. unfold byte_length. rewrite E. unfold oversize_data.
  rewrite repeat_length. apply N2Nat.id.
Qed.

Lemma oversize_exceeds (mk : list byte -> FilePart) :
  part_data (mk oversize_data) = oversize_data ->
  104857600 < byte_length (mk oversize_data).
Proof.
  intros E. unfold byte_length. rewrite E. unfold oversize_data.
  rewrite repeat_length, N2Nat.id. reflexivity.
Qed.

Lemma ceiling_within (mk : list byte -> FilePart) :
  part_data (mk ceiling_data) = ceiling_data ->
  byte_length (mk ceiling_data) <= 104857600.
Proof.
  intros E. unfold byte_length. rewrite E. unfold ceiling_data.
  rewrite repeat_length, N2Nat.id. apply N.le_refl.
Qed.

(** From here on the two large sample files are never unfolded. *)
#[global] Opaque oversize_data ceiling_data.

Lemma markdown_part_accepted (data : list byte) : accepted_type (markdown_part data).
Proof. left; reflexivity. Qed.

Lemma pdf_part_not_markdown (data : list byte) :
  part_mimetype (pdf_part data) <> lit "text/markdown".
Proof. simpl. vm_compute. discriminate. Qed.

Lemma pdf_part_not_plain (data : list byte) :
  part_mimetype (pdf_part data) <> lit "text/plain".
Proof. simpl. vm_compute. discriminate. Qed.

Lemma document_length : byte_length (markdown_part document) <= 100 * 1024 * 1024.
Proof. vm_compute. discriminate. Qed.

(** *** C1 *)

(** C1, as stated, fails on the code in two ways.  A question of three
    spaces is not rejected: the handler tests [!question] without trimming,
    so the provider is called and its answer returned.  And a missing
    question next to a file of an unsupported type is reported by the
    upload middleware, which runs before the handler, as an unsupported
    file. *)
Lemma C1_blank_question_not_rejected :
  forallb is_white_space (lit "   ") = true /\
  run (post_ask (stub (lit "It does X."))
         (submission (Some (lit "   ")) (Some (markdown_part document)))) [] =
    (inr (success (lit "It does X.")),
     [chat_request (lit "gpt-3.5-turbo")
        (finalPrompt (toString_utf8 document) (lit "   "))]) /\
  run (post_ask (stub (lit "It does X."))
         (submission None (Some (pdf_part document)))) [] =
    (inr (client_fault (lit "Markdown(.md) 또는 Text(.txt) 파일만 업로드 가능합니다.")),
     []).
Proof. repeat split; vm_compute; reflexivity. Qed.

(** C1, amended: for every submission that the upload middleware lets
    through (no file, or a file of an accepted type within the ceiling) and
    whose question field is absent or the empty string, the response is
    status 400 with the message asking for a question, and the provider is
    not called: the log of provider calls is unchanged. *)
Theorem C1_missing_question (openai : Provider) (sub : Submission) (w : World) :
  question_field sub = None \/ question_field sub = Some [] ->
  upload_passes sub ->
  run (post_ask openai sub) w =
    (inr (client_fault (lit "질문을 입력해주세요.")), w).
Proof.
  intros Hq Hu. unfold post_ask, upload_passes in *.
  destruct (markdownFile sub) as [part|] eqn:Hf.
  - destruct Hu as [Ht Hs]. rewrite (single_accepted _ _ Hf Ht Hs).
    apply ask_handler_no_question; simpl. destruct Hq as [-> | ->]; reflexivity.
  - rewrite (single_no_file _ Hf).
    apply ask_handler_no_question; simpl. destruct Hq as [-> | ->]; reflexivity.
Qed.

Lemma C1_missing_question_witness :
  run (post_ask stub_no_choice (submission (Some []) (Some (markdown_part document)))) [] =
    (inr (client_fault (lit "질문을 입력해주세요.")), []).
Proof.
  apply (@C1_missing_question stub_no_choice
           (submission (Some []) (Some (markdown_part document))) []).
  - right; reflexivity.
  - split; [left; reflexivity | vm_compute; discriminate].
Defined.

(** *** C3 *)

(** A response without choices has no first text. *)
Lemma first_content_no_choice (completion : Completion) :
  choices completion = None \/ choices completion = Some [] ->
  first_content completion = None.
Proof. unfold first_content. intros [-> | ->]; reflexivity. Qed.

(** C3: on a validated submission for which the provider returns a
    response, (a) if the response has no choice, or its first choice has no
    message text, or that text is empty or only whitespace, the pipeline
    answers with status 500 and the empty-response message; (b) if the
    first choice's text has a code unit that is not whitespace, the
    pipeline answers with status 200 and that text trimmed, which is not
    empty and has no whitespace at either end. *)
Theorem C3_response_mapper (openai : Provider) (sub : Submission) (part : FilePart)
    (q : jsstring) (w : World) (completion : Completion) :
  validated sub part q ->
  openai w (chat_request (or_else (model_field sub) (lit "gpt-3.5-turbo"))
              (finalPrompt (toString_utf8 (part_data part)) q)) = inr completion ->
  (choices completion = None \/ choices completion = Some [] \/
   first_content completion = None \/
   (exists text, first_content completion = Some text /\
                 forallb is_white_space text = true) ->
   fst (run (post_ask openai sub) w) =
     inr (server_fault (lit "처리 중 오류 발생: API로부터 빈 응답을 받았습니다."))) /\
  (forall text,
     first_content completion = Some text ->
     forallb is_white_space text = false ->
     fst (run (post_ask openai sub) w) = inr (success (trim text)) /\
     trim text <> [] /\
     (exists l r, text = l ++ trim text ++ r /\
                  forallb is_white_space l = true /\
                  forallb is_white_space r = true) /\
     (forall c t, trim text = c :: t -> is_white_space c = false) /\
     (forall t c, trim text = t ++ [c] -> is_white_space c = false)).
Proof.
  intros Hv Hp. rewrite (@post_ask_validated openai sub part q w Hv). cbv zeta. rewrite Hp.
  cbn [fst]. split.
  - intros [H | [H | [H | [text [H W]]]]].
    + rewrite (first_content_no_choice _ (or_introl H)). reflexivity.
    + rewrite (first_content_no_choice _ (or_intror H)). reflexivity.
    + rewrite H. reflexivity.
    + rewrite H, W. reflexivity.
  - intros text H W. rewrite H, W. split; [reflexivity|]. split.
    + intros E. apply trim_nil_iff in E. congruence.
    + split; [apply trim_surrounding|]. split.
      * intros c t. apply trim_first.
      * intros t c. apply trim_last.
Qed.

Lemma C3_response_mapper_witness :
  fst (run (post_ask stub_no_choice
              (submission (Some what_does_this_do) (Some (markdown_part document)))) []) =
    inr (server_fault (lit "처리 중 오류 발생: API로부터 빈 응답을 받았습니다.")) /\
  fst (run (post_ask (stub (lit "  It does X. "))
              (submission (Some what_does_this_do) (Some (markdown_part document)))) []) =
    inr (success (trim (lit "  It does X. "))).
Proof.
  assert (V : validated (submission (Some what_does_this_do) (Some (markdown_part document)))
                (markdown_part document) what_does_this_do).
  { split; [reflexivity|]. split; [vm_compute; discriminate|].
    split; [reflexivity|]. split; [left; reflexivity | vm_compute; discriminate]. }
  split.
  - apply (proj1 (@C3_response_mapper stub_no_choice _ _ _ [] _ V eq_refl)).
    right; left; reflexivity.
  - apply (proj2 (@C3_response_mapper (stub (lit "  It does X. ")) _ _ _ [] _ V eq_refl)
             (lit "  It does X. ")).
    + reflexivity.
    + vm_compute; reflexivity.
Defined.

(** *** C4 *)

(** C4, as stated, fails on the code: the error of the file filter is one
    fixed sentence that lists the file kinds that may be uploaded.  It is
    the same for [application/pdf] and for [image/png], and the rejected
    type does not occur in it. *)
Lemma C4_message_does_not_name_the_type :
  run (post_ask (stub (lit "It does X."))
         (submission (Some what_does_this_do) (Some (pdf_part document)))) [] =
    (inr (client_fault (lit "Markdown(.md) 또는 Text(.txt) 파일만 업로드 가능합니다.")),
     []) /\
  run (post_ask (stub (lit "It does X."))
         (submission (Some what_does_this_do) (Some (png_part document)))) [] =
    (inr (client_fault (lit "Markdown(.md) 또는 Text(.txt) 파일만 업로드 가능합니다.")),
     []) /\
  includes (lit "Markdown(.md) 또는 Text(.txt) 파일만 업로드 가능합니다.")
           (lit "application/pdf") = false /\
  includes (lit "Markdown(.md) 또는 Text(.txt) 파일만 업로드 가능합니다.")
           (lit "pdf") = false.
Proof. repeat split; vm_compute; reflexivity. Qed.

(** C4, amended: for every submission whose uploaded file's declared media
    type is neither exactly [text/markdown] nor exactly [text/plain], the
    response is status 400 with the fixed message that only Markdown (.md)
    or Text (.txt) files may be uploaded, whatever the other fields are,
    and the provider is not called. *)
Theorem C4_unsupported_media_type (openai : Provider) (sub : Submission)
    (part : FilePart) (w : World) :
  markdownFile sub = Some part ->
  part_mimetype part <> lit "text/markdown" ->
  part_mimetype part <> lit "text/plain" ->
  run (post_ask openai sub) w =
    (inr (client_fault (lit "Markdown(.md) 또는 Text(.txt) 파일만 업로드 가능합니다.")),
     w).
Proof.
  intros Hf H1 H2.
  rewrite (@post_ask_upload_error openai sub _ w (single_rejected_type _ _ Hf H1 H2)).
  reflexivity.
Qed.

Lemma C4_unsupported_media_type_witness :
  run (post_ask (stub (lit "It does X."))
         (submission (Some what_does_this_do) (Some (pdf_part document)))) [] =
    (inr (client_fault (lit "Markdown(.md) 또는 Text(.txt) 파일만 업로드 가능합니다.")),
     []).
Proof.
  apply (@C4_unsupported_media_type (stub (lit "It does X."))
           (submission (Some what_does_this_do) (Some (pdf_part document)))
           (pdf_part document) []).
  - reflexivity.
  - simpl. vm_compute. discriminate.
  - simpl. vm_compute. discriminate.
Defined.

(** *** C5 *)

(** C5, as stated, fails on the code: a submission without a question that
    carries an [application/pdf] file is reported as an unsupported file,
    not as a missing question. *)
Lemma C5_media_type_before_question :
  run (post_ask (stub (lit "It does X."))
         (submission None (Some (pdf_part document)))) [] =
    (inr (client_fault (lit "Markdown(.md) 또는 Text(.txt) 파일만 업로드 가능합니다.")),
     []) /\
  client_fault (lit "Markdown(.md) 또는 Text(.txt) 파일만 업로드 가능합니다.") <>
  client_fault (lit "질문을 입력해주세요.").
Proof. split; [vm_compute; reflexivity | vm_compute; discriminate]. Qed.

(** C5, amended: the rules apply in the order media type, size, question
    presence, file presence.  (1) A file of an unsupported declared type
    gets the media-type error whatever its size and the question.  (2) A
    file of an accepted type above the ceiling gets the size error whatever
    the question.  (3) Once the upload middleware lets the submission
    through, an absent or empty question gets the missing-question error
    whether or not a file is present.  (4) With a non-empty question, an
    absent file gets the missing-file error.  None of the four calls the
    provider. *)
Theorem C5_rule_order (openai : Provider) (sub : Submission) (w : World) :
  (forall part,
     markdownFile sub = Some part -> ~ accepted_type part ->
     run (post_ask openai sub) w =
       (inr (client_fault (lit "Markdown(.md) 또는 Text(.txt) 파일만 업로드 가능합니다.")),
        w)) /\
  (forall part,
     markdownFile sub = Some part -> accepted_type part ->
     100 * 1024 * 1024 < byte_length part ->
     run (post_ask openai sub) w =
       (inr (client_fault (lit "파일 업로드 오류: File too large")), w)) /\
  (upload_passes sub -> truthy (question_field sub) = false ->
     run (post_ask openai sub) w =
       (inr (client_fault (lit "질문을 입력해주세요.")), w)) /\
  (markdownFile sub = None -> truthy (question_field sub) = true ->
     run (post_ask openai sub) w =
       (inr (client_fault (lit "마크다운 또는 텍스트 파일을 업로드해주세요.")), w)).
Proof.
  repeat split.
  - intros part Hf Hn.
    assert (H1 : part_mimetype part <> lit "text/markdown")
      by (intros E; apply Hn; left; exact E).
    assert (H2 : part_mimetype part <> lit "text/plain")
      by (intros E; apply Hn; right; exact E).
    rewrite (@post_ask_upload_error openai sub _ w (single_rejected_type _ _ Hf H1 H2)).
    reflexivity.
  - intros part Hf Ht Hs.
    rewrite (@post_ask_upload_error openai sub _ w (single_too_large _ _ Hf Ht Hs)).
    reflexivity.
  - intros Hu Hq. unfold post_ask, upload_passes in *.
    destruct (markdownFile sub) as [part|] eqn:Hf.
    + destruct Hu as [Ht Hs]. rewrite (single_accepted _ _ Hf Ht Hs).
      apply ask_handler_no_question. exact Hq.
    + rewrite (single_no_file _ Hf). apply ask_handler_no_question. exact Hq.
  - intros Hf Hq. unfold post_ask. rewrite (single_no_file _ Hf).
    apply ask_handler_no_file; [exact Hq | reflexivity].
Qed.

Lemma C5_rule_order_witness :
  run (post_ask stub_no_choice (submission None (Some (pdf_part oversize_data)))) [] =
    (inr (client_fault (lit "Markdown(.md) 또는 Text(.txt) 파일만 업로드 가능합니다.")),
     []) /\
  run (post_ask stub_no_choice (submission None (Some (markdown_part oversize_data)))) [] =
    (inr (client_fault (lit "파일 업로드 오류: File too large")), []) /\
  run (post_ask stub_no_choice (submission None None)) [] =
    (inr (client_fault (lit "질문을 입력해주세요.")), []) /\
  run (post_ask stub_no_choice (submission (Some what_does_this_do) None)) [] =
    (inr (client_fault (lit "마크다운 또는 텍스트 파일을 업로드해주세요.")), []).
Proof.
  split; [|split; [|split]].
  - apply (proj1 (@C5_rule_order stub_no_choice
                    (submission None (Some (pdf_part oversize_data))) [])
             (pdf_part oversize_data) eq_refl).
    intros [E | E].
    + exact (@pdf_part_not_markdown oversize_data E).
    + exact (@pdf_part_not_plain oversize_data E).
  - apply (proj1 (proj2 (@C5_rule_order stub_no_choice
                           (submission None (Some (markdown_part oversize_data))) []))
             (markdown_part oversize_data) eq_refl (markdown_part_accepted _)).
    rewrite (byte_length_oversize markdown_part eq_refl). lia.
  - apply (proj1 (proj2 (proj2 (@C5_rule_order stub_no_choice (submission None None) []))));
      [exact I | reflexivity].
  - apply (proj2 (proj2 (proj2 (@C5_rule_order stub_no_choice
                                  (submission (Some what_does_this_do) None) []))));
      [reflexivity | vm_compute; reflexivity].
Defined.

(** *** C6 *)

(** C6: on every validated submission the provider is called exactly once,
    with the model chosen by the caller (the default [gpt-3.5-turbo] when
    the field is absent) and exactly two messages: the fixed system message
    and the user message holding the composed prompt.  When the provider
    returns a first choice whose text is not empty after trimming, the
    response is status 200 with body [{ answer: <the text, trimmed> }]. *)
Theorem C6_provider_call (openai : Provider) (sub : Submission) (part : FilePart)
    (q : jsstring) (w : World) :
  validated sub part q ->
  exists (selected : jsstring) (response : Response),
    let request :=
      {| model := selected;
         messages :=
           [ {| role := lit "system";
                content := lit "You are a helpful assistant designed to answer questions based on the provided text context." |};
             {| role := lit "user";
                content := finalPrompt (toString_utf8 (part_data part)) q |} ] |} in
    run (post_ask openai sub) w = (inr response, w ++ [request]) /\
    (model_field sub = None -> selected = lit "gpt-3.5-turbo") /\
    (forall m, model_field sub = Some m -> m <> [] -> selected = m) /\
    (forall completion text,
       openai w request = inr completion ->
       first_content completion = Some text ->
       trim text <> [] ->
       response = {| status := 200; body := [("answer"%string, trim text)] |}).
Proof.
  intros Hv. pose proof (@post_ask_validated openai sub part q w Hv) as H.
  cbv zeta in H.
  eexists (or_else (model_field sub) (lit "gpt-3.5-turbo")), _. cbv zeta.
  split; [exact H|]. split; [|split].
  - intros ->. reflexivity.
  - intros m -> Hm. destruct m; [congruence | reflexivity].
  - intros completion text Hp Hc Ht.
    unfold chat_request, system_message. rewrite Hp, Hc.
    destruct (forallb is_white_space text) eqn:W; [|reflexivity].
    apply trim_nil_iff in W. congruence.
Qed.

Lemma validated_sample :
  validated (submission (Some what_does_this_do) (Some (markdown_part document)))
            (markdown_part document) what_does_this_do.
Proof.
  split; [reflexivity|]. split; [vm_compute; discriminate|].
  split; [reflexivity|]. split; [left; reflexivity | vm_compute; discriminate].
Qed.

Lemma C6_provider_call_witness :
  exists (selected : jsstring) (response : Response),
    run (post_ask (stub (lit "It does X."))
           (submission (Some what_does_this_do) (Some (markdown_part document)))) [] =
      (inr response,
       [] ++ [ {| model := selected;
            messages :=
              [ {| role := lit "system";
                   content := lit "You are a helpful assistant designed to answer questions based on the provided text context." |};
                {| role := lit "user";
                   content := finalPrompt (toString_utf8 document) what_does_this_do |} ] |} ]) /\
    selected = lit "gpt-3.5-turbo" /\
    response = {| status := 200; body := [("answer"%string, trim (lit "It does X."))] |}.
Proof.
  destruct (@C6_provider_call (stub (lit "It does X."))
              (submission (Some what_does_this_do) (Some (markdown_part document)))
              (markdown_part document) what_does_this_do [] validated_sample)
    as (selected & response & H).
  cbv zeta in H. destruct H as (Hrun & Hdefault & _ & Hok).
  exists selected, response. split; [exact Hrun|]. split.
  - apply Hdefault. reflexivity.
  - apply (Hok _ (lit "It does X.") eq_refl eq_refl).
    vm_compute. discriminate.
Defined.

(** *** C7 *)

(** C7, as stated, fails on the code: a file of 100 MB and one byte whose
    declared type is [application/pdf] is refused by the file filter, which
    runs before the bytes are counted; the error is the media-type message,
    not the too-large message. *)
Lemma C7_oversize_pdf_gets_media_type_error :
  byte_length (pdf_part oversize_data) = 100 * 1024 * 1024 + 1 /\
  run (post_ask (stub (lit "It does X."))
         (submission (Some what_does_this_do) (Some (pdf_part oversize_data)))) [] =
    (inr (client_fault (lit "Markdown(.md) 또는 Text(.txt) 파일만 업로드 가능합니다.")),
     []) /\
  client_fault (lit "Markdown(.md) 또는 Text(.txt) 파일만 업로드 가능합니다.") <>
  client_fault (lit "파일 업로드 오류: File too large").
Proof.
  split; [exact (@byte_length_oversize pdf_part eq_refl)|]. split.
  - rewrite (@post_ask_upload_error (stub (lit "It does X.")) _ _ []
               (@single_rejected_type
                  (submission (Some what_does_this_do) (Some (pdf_part oversize_data)))
                  (pdf_part oversize_data) eq_refl
                  (@pdf_part_not_markdown oversize_data)
                  (@pdf_part_not_plain oversize_data))).
    reflexivity.
  - vm_compute. discriminate.
Qed.

(** C7, amended: for every uploaded file of an accepted declared type,
    (1) if its byte length exceeds 100 MB = 104857600 bytes, the response
    is status 400 with multer's too-large message and the provider is not
    called; (2) if its byte length is at most 104857600, the upload
    middleware hands the buffered file to the handler, and the response is
    not the too-large error. *)
Theorem C7_size_ceiling (openai : Provider) (sub : Submission) (part : FilePart)
    (w : World) :
  markdownFile sub = Some part ->
  accepted_type part ->
  (104857600 < byte_length part ->
     run (post_ask openai sub) w =
       (inr (client_fault (lit "파일 업로드 오류: File too large")), w)) /\
  (byte_length part <= 104857600 ->
     single upload sub =
       inr {| body_question := question_field sub;
              body_model := model_field sub;
              file := Some {| originalname := part_originalname part;
                              mimetype := part_mimetype part;
                              buffer := part_data part;
                              size := byte_length part |} |} /\
     fst (run (post_ask openai sub) w) <>
       inr (client_fault (lit "파일 업로드 오류: File too large"))).
Proof.
  intros Hf Ht. split.
  - intros Hs.
    rewrite (@post_ask_upload_error openai sub _ w (single_too_large _ _ Hf Ht Hs)).
    reflexivity.
  - intros Hs. pose proof (single_accepted _ _ Hf Ht Hs) as Ha.
    split; [exact Ha|].
    destruct (question_field sub) as [[|c q]|] eqn:Hq.
    + unfold post_ask. rewrite Ha.
      rewrite ask_handler_no_question by (simpl; try rewrite Hq; reflexivity).
      cbn [fst]. vm_compute. discriminate.
    + assert (Hv : validated sub part (c :: q)).
      { split; [exact Hq|]. split; [discriminate|]. split; [exact Hf|].
        split; [exact Ht | exact Hs]. }
      rewrite (@post_ask_validated openai sub part (c :: q) w Hv). cbv zeta.
      cbn [fst].
      destruct (openai w _) as [e | completion].
      * unfold server_fault, client_fault. intros E; inversion E.
      * destruct (first_content completion) as [text|].
        -- destruct (forallb is_white_space text);
             unfold server_fault, success, client_fault; intros E; inversion E.
        -- unfold server_fault, client_fault. intros E; inversion E.
    + unfold post_ask. rewrite Ha.
      rewrite ask_handler_no_question by (simpl; try rewrite Hq; reflexivity).
      cbn [fst]. vm_compute. discriminate.
Qed.

Lemma C7_size_ceiling_witness :
  run (post_ask (stub (lit "It does X."))
         (submission (Some what_does_this_do) (Some (markdown_part oversize_data)))) [] =
    (inr (client_fault (lit "파일 업로드 오류: File too large")), []) /\
  fst (run (post_ask (stub (lit "It does X."))
              (submission (Some what_does_this_do) (Some (markdown_part ceiling_data)))) []) <>
    inr (client_fault (lit "파일 업로드 오류: File too large")).
Proof.
  split.
  - apply (proj1 (@C7_size_ceiling (stub (lit "It does X."))
                    (submission (Some what_does_this_do) (Some (markdown_part oversize_data)))
                    (markdown_part oversize_data) [] eq_refl
                    (@markdown_part_accepted oversize_data))).
    exact (@oversize_exceeds markdown_part eq_refl).
  - apply (proj2 (@C7_size_ceiling (stub (lit "It does X."))
                    (submission (Some what_does_this_do) (Some (markdown_part ceiling_data)))
                    (markdown_part ceiling_data) [] eq_refl
                    (@markdown_part_accepted ceiling_data))).
    exact (@ceiling_within markdown_part eq_refl).
Defined.

(** *** C8 *)

Lemma utf8_initial_ok : boundaries_ok utf8_initial.
Proof. split; vm_compute; discriminate. Qed.

Lemma utf8_lead_ok (b : N) : boundaries_ok (snd (utf8_lead b)).
Proof.
  unfold utf8_lead.
  destruct (b <=? 0x7F); [apply utf8_initial_ok|].
  destruct ((0xC2 <=? b) && (b <=? 0xDF)); [split; vm_compute; discriminate|].
  destruct ((0xE0 <=? b) && (b <=? 0xEF)).
  { split; simpl.
    - destruct (b =? 0xE0); vm_compute; discriminate.
    - destruct (b =? 0xED); vm_compute; discriminate. }
  destruct ((0xF0 <=? b) && (b <=? 0xF4)).
  { split; simpl.
    - destruct (b =? 0xF0); vm_compute; discriminate.
    - destruct (b =? 0xF4); vm_compute; discriminate. }
  apply utf8_initial_ok.
Qed.

Lemma utf8_step_ok (st : utf8_state) (b : N) : boundaries_ok (snd (utf8_step st b)).
Proof.
  unfold utf8_step. destruct (bytes_needed st) as [|k]; [apply utf8_lead_ok|].
  destruct ((lower_boundary st <=? b) && (b <=? upper_boundary st)).
  - destruct k; [apply utf8_initial_ok | split; vm_compute; discriminate].
  - pose proof (utf8_lead_ok b) as H. destruct (utf8_lead b) as [out st']. exact H.
Qed.

(** A byte that occurs in no UTF-8 text is decoded to U+FFFD in every
    state. *)
Lemma utf8_step_never (st : utf8_state) (b : byte) :
  boundaries_ok st -> never_in_utf8 b = true ->
  In replacement_character (fst (utf8_step st (Byte.to_N b))).
Proof.
  intros [Hl Hu] Hb. unfold never_in_utf8 in Hb. cbv zeta in Hb.
  set (n := Byte.to_N b) in *.
  assert (Hn : n = 0xC0 \/ n = 0xC1 \/ 0xF5 <= n).
  { apply orb_true_iff in Hb. destruct Hb as [Hb | Hb].
    - apply orb_true_iff in Hb. destruct Hb as [Hb | Hb]; apply N.eqb_eq in Hb; auto.
    - apply N.leb_le in Hb. auto. }
  assert (Hlead : utf8_lead n = ([replacement_character], utf8_initial)).
  { unfold utf8_lead.
    assert (E1 : (n <=? 0x7F) = false) by (apply N.leb_gt; lia).
    assert (E2 : (0xC2 <=? n) && (n <=? 0xDF) = false).
    { apply andb_false_iff. destruct Hn as [-> | [-> | H]].
      - left; reflexivity.
      - left; reflexivity.
      - right; apply N.leb_gt; lia. }
    assert (E3 : (0xE0 <=? n) && (n <=? 0xEF) = false).
    { apply andb_false_iff. destruct Hn as [-> | [-> | H]].
      - left; reflexivity.
      - left; reflexivity.
      - right; apply N.leb_gt; lia. }
    assert (E4 : (0xF0 <=? n) && (n <=? 0xF4) = false).
    { apply andb_false_iff. destruct Hn as [-> | [-> | H]].
      - left; reflexivity.
      - left; reflexivity.
      - right; apply N.leb_gt; lia. }
    rewrite E1, E2, E3, E4. reflexivity. }
  unfold utf8_step. destruct (bytes_needed st) as [|k].
  - rewrite Hlead. left; reflexivity.
  - assert (E : (lower_boundary st <=? n) && (n <=? upper_boundary st) = false).
    { apply andb_false_iff. right. apply N.leb_gt. lia. }
    rewrite E, Hlead. left; reflexivity.
Qed.

Lemma utf8_decode_never (pre post : list byte) (b : byte) (st : utf8_state) :
  boundaries_ok st -> never_in_utf8 b = true ->
  In replacement_character
     (utf8_decode st (map Byte.to_N (pre ++ b :: post))).
Proof.
  intros Hst Hb. revert st Hst.
  induction pre as [|a pre IH]; intros st Hst; simpl.
  - pose proof (utf8_step_never st b Hst Hb) as H.
    destruct (utf8_step st (Byte.to_N b)) as [out st']. apply in_or_app. left. exact H.
  - pose proof (utf8_step_ok st (Byte.to_N a)) as H.
    destruct (utf8_step st (Byte.to_N a)) as [out st']. apply in_or_app. right.
    apply IH. exact H.
Qed.

Lemma toString_utf8_never (pre post : list byte) (b : byte) :
  never_in_utf8 b = true ->
  In replacement_character (toString_utf8 (pre ++ b :: post)).
Proof.
  intros Hb. unfold toString_utf8. apply in_flat_map.
  exists replacement_character. split.
  - apply utf8_decode_never; [apply utf8_initial_ok | exact Hb].
  - left; reflexivity.
Qed.

(** C8, as stated, fails on the code: the one-byte buffer 0xFF is not
    valid UTF-8, yet [toString('utf-8')] does not fail on it.  It decodes to
    U+FFFD, the prompt is composed from that text and sent to the provider,
    and the answer comes back with status 200. *)
Lemma C8_invalid_utf8_is_decoded :
  toString_utf8 [xff] = [0xFFFD] /\
  run (post_ask (stub (lit "It does X."))
         (submission (Some what_does_this_do) (Some (markdown_part [xff])))) [] =
    (inr (success (lit "It does X.")),
     [chat_request (lit "gpt-3.5-turbo") (finalPrompt [0xFFFD] what_does_this_do)]).
Proof. split; vm_compute; reflexivity. Qed.

(** C8, amended: for every validated submission, whatever bytes the
    uploaded buffer holds, decoding does not fail: the provider is called
    once with the prompt composed from the decoded buffer, and when the
    provider returns a text that is not empty after trimming the response
    is the success response.  A buffer that holds a byte that occurs in no
    UTF-8 text (0xC0, 0xC1, 0xF5..0xFF) is decoded to a text that contains
    U+FFFD. *)
Theorem C8_decoding_never_fails (openai : Provider) (sub : Submission)
    (part : FilePart) (q : jsstring) (w : World) :
  validated sub part q ->
  (exists response : Response,
     let request :=
       chat_request (or_else (model_field sub) (lit "gpt-3.5-turbo"))
                    (finalPrompt (toString_utf8 (part_data part)) q) in
     run (post_ask openai sub) w = (inr response, w ++ [request]) /\
     (forall completion text,
        openai w request = inr completion ->
        first_content completion = Some text ->
        trim text <> [] ->
        response = success (trim text))) /\
  (forall pre b post,
     part_data part = pre ++ b :: post ->
     never_in_utf8 b = true ->
     In 0xFFFD (toString_utf8 (part_data part))).
Proof.
  intros Hv. split.
  - pose proof (@post_ask_validated openai sub part q w Hv) as H. cbv zeta in H.
    eexists. cbv zeta. split; [exact H|].
    intros completion text Hp Hc Ht. rewrite Hp, Hc.
    destruct (forallb is_white_space text) eqn:W; [|reflexivity].
    apply trim_nil_iff in W. congruence.
  - intros pre b post E Hb. rewrite E. apply toString_utf8_never. exact Hb.
Qed.

Lemma validated_invalid_utf8 :
  validated (submission (Some what_does_this_do) (Some (markdown_part [x41; xff; x42])))
            (markdown_part [x41; xff; x42]) what_does_this_do.
Proof.
  split; [reflexivity|]. split; [vm_compute; discriminate|].
  split; [reflexivity|]. split; [left; reflexivity | vm_compute; discriminate].
Qed.

Lemma C8_decoding_never_fails_witness :
  (exists response : Response,
     run (post_ask (stub (lit "It does X."))
            (submission (Some what_does_this_do) (Some (markdown_part [x41; xff; x42])))) [] =
       (inr response,
        [] ++ [chat_request (lit "gpt-3.5-turbo")
                 (finalPrompt (toString_utf8 [x41; xff; x42]) what_does_this_do)]) /\
     response = success (trim (lit "It does X."))) /\
  In 0xFFFD (toString_utf8 [x41; xff; x42]).
Proof.
  destruct (C8_decoding_never_fails (stub (lit "It does X."))
              (submission (Some what_does_this_do) (Some (markdown_part [x41; xff; x42])))
              (markdown_part [x41; xff; x42]) what_does_this_do []
              validated_invalid_utf8) as [[response H] Hin].
  cbv zeta in H. destruct H as [Hrun Hok]. split.
  - exists response. split; [exact Hrun|].
    apply (Hok _ (lit "It does X.") eq_refl eq_refl). vm_compute. discriminate.
  - apply (Hin [x41] xff [x42] eq_refl). reflexivity.
Defined.

(** *** C9 *)

(** C9: the composed prompt is a function of the document bytes and the
    question alone.  Two validated submissions with the same document bytes
    and the same question send the same user message to the provider,
    whatever the provider is and has answered before, whatever calls were
    made earlier, and whatever the file name, the declared type and the
    selected model are. *)
Theorem C9_prompt_deterministic (openai1 openai2 : Provider) (sub1 sub2 : Submission)
    (part1 part2 : FilePart) (q : jsstring) (w1 w2 : World) :
  validated sub1 part1 q ->
  validated sub2 part2 q ->
  part_data part1 = part_data part2 ->
  exists (prompt : jsstring) r1 r2 m1 m2,
    run (post_ask openai1 sub1) w1 = (r1, w1 ++ [chat_request m1 prompt]) /\
    run (post_ask openai2 sub2) w2 = (r2, w2 ++ [chat_request m2 prompt]) /\
    prompt = finalPrompt (toString_utf8 (part_data part1)) q.
Proof.
  intros H1 H2 E.
  pose proof (@post_ask_validated openai1 sub1 part1 q w1 H1) as R1.
  pose proof (@post_ask_validated openai2 sub2 part2 q w2 H2) as R2.
  cbv zeta in R1, R2. rewrite <- E in R2.
  eexists _, _, _, _, _. split; [exact R1|]. split; [exact R2 | reflexivity].
Qed.

Lemma validated_plain_sample :
  validated {| question_field := Some what_does_this_do;
               model_field := Some (lit "gpt-4");
               markdownFile := Some {| part_originalname := lit "other.txt";
                                       part_mimetype := lit "text/plain";
                                       part_data := document |} |}
            {| part_originalname := lit "other.txt";
               part_mimetype := lit "text/plain";
               part_data := document |}
            what_does_this_do.
Proof.
  split; [reflexivity|]. split; [vm_compute; discriminate|].
  split; [reflexivity|]. split; [right; reflexivity | vm_compute; discriminate].
Qed.

Lemma C9_prompt_deterministic_witness :
  exists (prompt : jsstring) r1 r2 m1 m2,
    run (post_ask (stub (lit "It does X."))
           (submission (Some what_does_this_do) (Some (markdown_part document)))) [] =
      (r1, [] ++ [chat_request m1 prompt]) /\
    run (post_ask stub_no_choice
           {| question_field := Some what_does_this_do;
              model_field := Some (lit "gpt-4");
              markdownFile := Some {| part_originalname := lit "other.txt";
                                      part_mimetype := lit "text/plain";
                                      part_data := document |} |})
        [chat_request (lit "gpt-4") (lit "an earlier prompt")] =
      (r2, [chat_request (lit "gpt-4") (lit "an earlier prompt")] ++ [chat_request m2 prompt]) /\
    prompt = finalPrompt (toString_utf8 document) what_does_this_do.
Proof.
  exact (C9_prompt_deterministic (stub (lit "It does X.")) stub_no_choice _ _ _ _ _
           [] [chat_request (lit "gpt-4") (lit "an earlier prompt")]
           validated_sample validated_plain_sample eq_refl).
Defined.

(** *** C10 *)

(** C10: (1) a submission whose [model] field is the empty string is
    answered exactly as the same submission without the field: same
    response, same provider calls; (2) on a validated submission with the
    field empty or absent the provider is called with [gpt-3.5-turbo];
    (3) on a validated submission with a non-empty [model] field the
    provider is called with that very string, whatever it is. *)
Theorem C10_model_selection (openai : Provider) (sub : Submission) (w : World) :
  run (post_ask openai (with_model sub (Some []))) w =
  run (post_ask openai (with_model sub None)) w /\
  (forall part q,
     validated sub part q ->
     model_field sub = Some [] \/ model_field sub = None ->
     snd (run (post_ask openai sub) w) =
       w ++ [chat_request (lit "gpt-3.5-turbo")
               (finalPrompt (toString_utf8 (part_data part)) q)]) /\
  (forall part q m,
     validated sub part q ->
     model_field sub = Some m -> m <> [] ->
     snd (run (post_ask openai sub) w) =
       w ++ [chat_request m (finalPrompt (toString_utf8 (part_data part)) q)]).
Proof.
  split; [|split].
  - unfold post_ask, single, with_model.
    cbn [markdownFile question_field model_field].
    destruct (markdownFile sub) as [part|]; [|reflexivity].
    destruct (fileFilter upload part) as [err | [|]]; try reflexivity.
    destruct (fileSize (limits upload) <? N.of_nat (List.length (part_data part)));
      reflexivity.
  - intros part q Hv Hm.
    rewrite (@post_ask_validated openai sub part q w Hv). cbv zeta.
    destruct Hm as [-> | ->]; reflexivity.
  - intros part q m Hv Hm Hne.
    rewrite (@post_ask_validated openai sub part q w Hv). cbv zeta.
    rewrite Hm. destruct m; [congruence | reflexivity].
Qed.

Lemma C10_model_selection_witness :
  snd (run (post_ask (stub (lit "It does X."))
              (submission (Some what_does_this_do) (Some (markdown_part document)))) []) =
    [] ++ [chat_request (lit "gpt-3.5-turbo")
             (finalPrompt (toString_utf8 document) what_does_this_do)] /\
  snd (run (post_ask (stub (lit "It does X."))
              (with_model (submission (Some what_does_this_do) (Some (markdown_part document)))
                          (Some (lit "no-such-model")))) []) =
    [] ++ [chat_request (lit "no-such-model")
             (finalPrompt (toString_utf8 document) what_does_this_do)].
Proof.
  split.
  - apply (proj1 (proj2 (C10_model_selection (stub (lit "It does X."))
                           (submission (Some what_does_this_do) (Some (markdown_part document)))
                           [])) (markdown_part document) what_does_this_do validated_sample).
    right; reflexivity.
  - apply (proj2 (proj2 (C10_model_selection (stub (lit "It does X."))
                           (with_model (submission (Some what_does_this_do)
                                                   (Some (markdown_part document)))
                                       (Some (lit "no-such-model")))
                           [])) (markdown_part document) what_does_this_do
                                (lit "no-such-model")).
    + split; [reflexivity|]. split; [vm_compute; discriminate|].
      split; [reflexivity|]. split; [left; reflexivity | vm_compute; discriminate].
    + reflexivity.
    + vm_compute. discriminate.
Defined.

(** *** C2 *)

(** C2 does not hold of the code: the command-line entry point takes the
    question and never puts it in the prompt.  (1) Its run is the same for
    any two questions.  (2) On the document ["# Title\nBody text."] and the
    question ["What does this do?"] it sends the document between the
    delimiter lines followed by a fixed instruction, (3) where the HTTP
    pipeline sends its own heading, the document between the same delimiter
    lines and the question; (4) the two user messages differ, (5) the
    question does not occur in the first, and (6) it occurs in the second. *)
Theorem C2_cli_prompt_omits_question :
  (forall apiKey fs openai q1 q2 inputFile outputFile model w,
     run (Cli.processMarkdownAndAsk apiKey fs openai q1 inputFile outputFile model) w =
     run (Cli.processMarkdownAndAsk apiKey fs openai q2 inputFile outputFile model) w) /\
  snd (run (Cli.processMarkdownAndAsk (Some (lit "sk-test")) (fs_with document)
              (stub (lit "It does X.")) what_does_this_do
              (lit "in.md") (lit "out.md") (Cli.argv_model None)) []) =
    [chat_request (lit "gpt-3.5-turbo")
       (nl ++ lit "--- 마크다운 내용 시작 ---" ++ nl ++
        toString_utf8 document ++ nl ++
        lit "--- 마크다운 내용 끝 ---" ++ nl ++
        lit "주어진 마크다운에 해당하는 문제를 C99로 작성해줘" ++ nl)] /\
  snd (run (post_ask (stub (lit "It does X."))
              (submission (Some what_does_this_do) (Some (markdown_part document)))) []) =
    [chat_request (lit "gpt-3.5-turbo")
       (lit "주어진 마크다운 내용을 바탕으로 다음 질문에 답해주세요." ++ nl ++ nl ++
        lit "--- 마크다운 내용 시작 ---" ++ nl ++
        toString_utf8 document ++ nl ++
        lit "--- 마크다운 내용 끝 ---" ++ nl ++ nl ++
        lit "질문: " ++ what_does_this_do ++ nl)] /\
  Cli.finalPrompt (toString_utf8 document) <>
    Server.finalPrompt (toString_utf8 document) what_does_this_do /\
  includes (Cli.finalPrompt (toString_utf8 document)) what_does_this_do = false /\
  includes (Server.finalPrompt (toString_utf8 document) what_does_this_do)
           what_does_this_do = true.
Proof.
  split; [intros; reflexivity|].
  split; [vm_compute; reflexivity|].
  split; [vm_compute; reflexivity|].
  split; [vm_compute; discriminate|].
  split; vm_compute; reflexivity.
Qed.

(* ===================================================================== *)
(** ** Further properties of the server *)
(* ===================================================================== *)

Import Sample.

(** The declared type is accepted or it is neither of the two. *)
Lemma accepted_type_cases (part : FilePart) :
  accepted_type part \/
  (part_mimetype part <> lit "text/markdown" /\ part_mimetype part <> lit "text/plain").
Proof.
  unfold accepted_type.
  destruct (strict_eq (part_mimetype part) (lit "text/markdown")) eqn:E1.
  - left; left. apply strict_eq_true_iff. exact E1.
  - destruct (strict_eq (part_mimetype part) (lit "text/plain")) eqn:E2.
    + left; right. apply strict_eq_true_iff. exact E2.
    + right. split; apply strict_eq_false_iff; assumption.
Qed.

(** The messages of the server are not empty. *)
Lemma prefixed_nonempty (prefix rest : jsstring) : prefix <> [] -> prefix ++ rest <> [].
Proof. destruct prefix; [congruence | discriminate]. Qed.

(** The four refusals of the route. *)
Lemma post_ask_rejected_type (openai : Provider) (sub : Submission) (part : FilePart)
    (w : World) :
  markdownFile sub = Some part -> ~ accepted_type part ->
  run (post_ask openai sub) w =
    (inr (client_fault (lit "Markdown(.md) 또는 Text(.txt) 파일만 업로드 가능합니다.")), w).
Proof.
  intros Hf Hn.
  assert (H1 : part_mimetype part <> lit "text/markdown")
    by (intros E; apply Hn; left; exact E).
  assert (H2 : part_mimetype part <> lit "text/plain")
    by (intros E; apply Hn; right; exact E).
  rewrite (@post_ask_upload_error openai sub _ w (single_rejected_type _ _ Hf H1 H2)).
  reflexivity.
Qed.

Lemma post_ask_too_large (openai : Provider) (sub : Submission) (part : FilePart)
    (w : World) :
  markdownFile sub = Some part -> accepted_type part ->
  104857600 < byte_length part ->
  run (post_ask openai sub) w =
    (inr (client_fault (lit "파일 업로드 오류: File too large")), w).
Proof.
  intros Hf Ht Hs.
  rewrite (@post_ask_upload_error openai sub _ w (single_too_large _ _ Hf Ht Hs)).
  reflexivity.
Qed.

Lemma post_ask_no_question (openai : Provider) (sub : Submission) (w : World) :
  upload_passes sub -> truthy (question_field sub) = false ->
  run (post_ask openai sub) w =
    (inr (client_fault (lit "질문을 입력해주세요.")), w).
Proof.
  intros Hu Hq. unfold post_ask, upload_passes in *.
  destruct (markdownFile sub) as [part|] eqn:Hf.
  - destruct Hu as [Ht Hs]. rewrite (single_accepted _ _ Hf Ht Hs).
    apply ask_handler_no_question. exact Hq.
  - rewrite (single_no_file _ Hf). apply ask_handler_no_question. exact Hq.
Qed.

Lemma post_ask_no_file (openai : Provider) (sub : Submission) (w : World) :
  markdownFile sub = None -> truthy (question_field sub) = true ->
  run (post_ask openai sub) w =
    (inr (client_fault (lit "마크다운 또는 텍스트 파일을 업로드해주세요.")), w).
Proof.
  intros Hf Hq. unfold post_ask. rewrite (single_no_file _ Hf).
  apply ask_handler_no_file; [exact Hq | reflexivity].
Qed.

(** Every run of the route is one of five: the four refusals, which leave
    the log of provider calls as it was, or the run of a validated
    submission, which adds one call. *)
Lemma post_ask_cases (openai : Provider) (sub : Submission) (w : World) :
  (run (post_ask openai sub) w =
     (inr (client_fault (lit "Markdown(.md) 또는 Text(.txt) 파일만 업로드 가능합니다.")), w) /\
   exists part, markdownFile sub = Some part /\ ~ accepted_type part) \/
  (run (post_ask openai sub) w =
     (inr (client_fault (lit "파일 업로드 오류: File too large")), w) /\
   exists part, markdownFile sub = Some part /\ accepted_type part /\
                104857600 < byte_length part) \/
  (run (post_ask openai sub) w =
     (inr (client_fault (lit "질문을 입력해주세요.")), w) /\
   truthy (question_field sub) = false /\ upload_passes sub) \/
  (run (post_ask openai sub) w =
     (inr (client_fault (lit "마크다운 또는 텍스트 파일을 업로드해주세요.")), w) /\
   truthy (question_field sub) = true /\ markdownFile sub = None) \/
  (exists part q,
     validated sub part q /\
     run (post_ask openai sub) w =
       (inr match openai w (chat_request (or_else (model_field sub) (lit "gpt-3.5-turbo"))
                              (finalPrompt (toString_utf8 (part_data part)) q)) with
            | inl error => server_fault (lit "처리 중 오류 발생: " ++ message error)
            | inr completion =>
                match first_content completion with
                | None => server_fault (lit "처리 중 오류 발생: API로부터 빈 응답을 받았습니다.")
                | Some text =>
                    if forallb is_white_space text
                    then server_fault (lit "처리 중 오류 발생: API로부터 빈 응답을 받았습니다.")
                    else success (trim text)
                end
            end,
        w ++ [chat_request (or_else (model_field sub) (lit "gpt-3.5-turbo"))
                (finalPrompt (toString_utf8 (part_data part)) q)])).
Proof.
  pose proof (post_ask_rejected_type openai sub) as R1.
  pose proof (post_ask_too_large openai sub) as R2.
  pose proof (post_ask_no_question openai sub w) as R3.
  pose proof (post_ask_no_file openai sub w) as R4.
  destruct (markdownFile sub) as [part|] eqn:Hf.
  - destruct (accepted_type_cases part) as [Ht | [N1 N2]].
    + destruct (N.lt_ge_cases 104857600 (byte_length part)) as [Hs | Hs].
      * right; left. split; [apply (R2 part w eq_refl Ht Hs)|]. exists part. auto.
      * destruct (truthy (question_field sub)) eqn:Hq.
        -- right; right; right; right.
           destruct (question_field sub) as [[|c q]|] eqn:Hqf; try discriminate.
           assert (Hv : validated sub part (c :: q)).
           { split; [exact Hqf|]. split; [discriminate|]. split; [exact Hf|].
             split; [exact Ht | exact Hs]. }
           exists part, (c :: q). split; [exact Hv|].
           exact (@post_ask_validated openai sub part (c :: q) w Hv).
        -- right; right; left.
           assert (Hu : upload_passes sub).
           { unfold upload_passes. rewrite Hf. split; assumption. }
           split; [apply R3; [exact Hu | reflexivity]|]. auto.
    + left. split.
      * apply (R1 part w eq_refl). intros [E | E]; contradiction.
      * exists part. split; [reflexivity|]. intros [E | E]; contradiction.
  - assert (Hu : upload_passes sub) by (unfold upload_passes; rewrite Hf; exact I).
    destruct (truthy (question_field sub)) eqn:Hq.
    + right; right; right; left. split; [apply R4; reflexivity|]. auto.
    + right; right; left. split; [apply R3; [exact Hu | reflexivity]|]. auto.
Qed.

(** X1: the route answers every submission and never throws.  The answer
    is one of three shapes: status 400 with a non-empty [error] message and
    no provider call; status 500 with a non-empty [error] message after
    exactly one provider call; status 200 with a non-empty [answer] after
    exactly one provider call.  Calls made earlier stay in the log. *)
Theorem X1_post_ask_always_responds (openai : Provider) (sub : Submission) (w : World) :
  exists (response : Response) (w' : World),
    run (post_ask openai sub) w = (inr response, w') /\
    ((status response = 400 /\ w' = w /\
      exists m, body response = [("error"%string, m)] /\ m <> []) \/
     (status response = 500 /\ (exists request, w' = w ++ [request]) /\
      exists m, body response = [("error"%string, m)] /\ m <> []) \/
     (status response = 200 /\ (exists request, w' = w ++ [request]) /\
      exists a, body response = [("answer"%string, a)] /\ a <> [])).
Proof.
  assert (L : forall s : string, lit s <> [] ->
                exists m, [("error"%string, lit s)] = [("error"%string, m)] /\ m <> []).
  { intros s H. exists (lit s). split; [reflexivity | exact H]. }
  destruct (post_ask_cases openai sub w)
    as [[R _] | [[R _] | [[R _] | [[R _] | (part & q & _ & R)]]]];
    rewrite R; eexists _, _; (split; [reflexivity|]).
  - left. split; [reflexivity|]. split; [reflexivity|].
    apply L. vm_compute. discriminate.
  - left. split; [reflexivity|]. split; [reflexivity|].
    apply L. vm_compute. discriminate.
  - left. split; [reflexivity|]. split; [reflexivity|].
    apply L. vm_compute. discriminate.
  - left. split; [reflexivity|]. split; [reflexivity|].
    apply L. vm_compute. discriminate.
  - assert (P : lit "처리 중 오류 발생: " <> []) by (vm_compute; discriminate).
    destruct (openai w _) as [error | completion].
    + right; left. split; [reflexivity|]. split; [eexists; reflexivity|].
      eexists. split; [reflexivity|]. apply prefixed_nonempty. exact P.
    + destruct (first_content completion) as [text|].
      * destruct (forallb is_white_space text) eqn:W.
        -- right; left. split; [reflexivity|]. split; [eexists; reflexivity|].
           apply L. vm_compute. discriminate.
        -- right; right. split; [reflexivity|]. split; [eexists; reflexivity|].
           eexists. split; [reflexivity|].
           intros E. apply trim_nil_iff in E. congruence.
      * right; left. split; [reflexivity|]. split; [eexists; reflexivity|].
        apply L. vm_compute. discriminate.
Qed.

(** X2: the provider is called for validated submissions only.  If a run
    of the route adds a call to the log, or answers with a status other
    than 400, then the submission has a non-empty question and a file of an
    accepted declared type within the size ceiling. *)
Theorem X2_provider_called_only_if_validated (openai : Provider) (sub : Submission)
    (w w' : World) (response : Response) :
  run (post_ask openai sub) w = (inr response, w') ->
  w' <> w \/ status response <> 400 ->
  exists part q, validated sub part q.
Proof.
  intros Hrun Hobs.
  destruct (post_ask_cases openai sub w)
    as [[R _] | [[R _] | [[R _] | [[R _] | (part & q & Hv & _)]]]];
    try (rewrite R in Hrun; injection Hrun as <- <-;
         destruct Hobs as [H | H]; exfalso; apply H; reflexivity).
  exists part, q. exact Hv.
Qed.

Lemma X2_provider_called_only_if_validated_witness :
  exists part q,
    validated (submission (Some what_does_this_do) (Some (markdown_part document))) part q.
Proof.
  apply (X2_provider_called_only_if_validated stub_no_choice
           (submission (Some what_does_this_do) (Some (markdown_part document)))
           [] _ _ eq_refl).
  right. vm_compute. discriminate.
Defined.

(** X3: when the provider rejects the call of a validated submission, the
    route answers with status 500 and the text "처리 중 오류 발생: "
    followed by the provider's error message; the call stays in the log. *)
Theorem X3_provider_failure_is_server_fault (openai : Provider) (sub : Submission)
    (part : FilePart) (q : jsstring) (w : World) (error : JsError) :
  validated sub part q ->
  openai w (chat_request (or_else (model_field sub) (lit "gpt-3.5-turbo"))
              (finalPrompt (toString_utf8 (part_data part)) q)) = inl error ->
  run (post_ask openai sub) w =
    (inr {| status := 500;
            body := [("error"%string, lit "처리 중 오류 발생: " ++ message error)] |},
     w ++ [chat_request (or_else (model_field sub) (lit "gpt-3.5-turbo"))
             (finalPrompt (toString_utf8 (part_data part)) q)]).
Proof.
  intros Hv Hp. rewrite (@post_ask_validated openai sub part q w Hv). cbv zeta.
  rewrite Hp. reflexivity.
Qed.

Lemma X3_provider_failure_is_server_fault_witness :
  run (post_ask (settling (inl (Error (lit "429 Rate limit reached"))))
         (submission (Some what_does_this_do) (Some (markdown_part document)))) [] =
    (inr {| status := 500;
            body := [("error"%string,
                      lit "처리 중 오류 발생: " ++ lit "429 Rate limit reached")] |},
     [] ++ [chat_request (lit "gpt-3.5-turbo")
              (finalPrompt (toString_utf8 document) what_does_this_do)]).
Proof.
  exact (X3_provider_failure_is_server_fault
           (settling (inl (Error (lit "429 Rate limit reached"))))
           (submission (Some what_does_this_do) (Some (markdown_part document)))
           (markdown_part document) what_does_this_do []
           (Error (lit "429 Rate limit reached")) validated_sample eq_refl).
Defined.

(** X4: the prompt template.  With the document known the prompt
    determines the question, and with the question known it determines the
    document.  It does not determine the pair: the template does not
    escape its markers, so a document that goes on with the end marker, the
    question label and more text gives the same prompt as the shorter
    document asked that text, the markers and the question. *)
Theorem X4_prompt_template (d x q : jsstring) :
  (forall q', finalPrompt d q = finalPrompt d q' <-> q = q') /\
  (forall d', finalPrompt d q = finalPrompt d' q <-> d = d') /\
  finalPrompt
    (d ++ nl ++ lit "--- 마크다운 내용 끝 ---" ++ nl ++ nl ++ lit "질문: " ++ x) q =
  finalPrompt
    d (x ++ nl ++ lit "--- 마크다운 내용 끝 ---" ++ nl ++ nl ++ lit "질문: " ++ q).
Proof.
  split; [|split].
  - intros q'. split; [|intros ->; reflexivity].
    unfold finalPrompt. intros E.
    repeat apply app_inv_head in E.
    apply app_inv_tail in E. exact E.
  - intros d'. split; [|intros ->; reflexivity].
    unfold finalPrompt. intros E.
    do 5 apply app_inv_head in E.
    apply app_inv_tail in E. exact E.
  - unfold finalPrompt. repeat rewrite <- app_assoc. reflexivity.
Qed.

(** X5: a buffer of ASCII bytes is decoded to itself, code unit for byte:
    an ASCII document stands in the prompt exactly as it was uploaded. *)
Theorem X5_ascii_decodes_to_itself (buffer : list byte) :
  Forall (fun b => Byte.to_N b <= 0x7F) buffer ->
  toString_utf8 buffer = map Byte.to_N buffer.
Proof.
  intros H. unfold toString_utf8.
  induction H as [|b rest Hb _ IH]; [reflexivity|].
  cbn [map utf8_decode]. unfold utf8_step, utf8_initial at 1. cbn [bytes_needed].
  unfold utf8_lead. apply N.leb_le in Hb. rewrite Hb.
  cbn [app flat_map]. rewrite IH. unfold utf16_units.
  assert (L : (Byte.to_N b <? 0x10000) = true).
  { apply N.ltb_lt. apply N.leb_le in Hb. lia. }
  rewrite L. reflexivity.
Qed.

Lemma X5_ascii_decodes_to_itself_witness :
  toString_utf8 [x23; x20; x54] = map Byte.to_N [x23; x20; x54].
Proof.
  apply X5_ascii_decodes_to_itself.
  repeat constructor; vm_compute; discriminate.
Defined.

(* ===================================================================== *)
(** ** Properties of the command-line entry point *)
(* ===================================================================== *)

(** The run of [processMarkdownAndAsk], step by step. *)
Lemma processMarkdownAndAsk_run (apiKey : option jsstring) (fs : Cli.FileSystem)
    (openai : Provider) (question inputFile outputFile model : jsstring) (w : World) :
  run (Cli.processMarkdownAndAsk apiKey fs openai question inputFile outputFile model) w =
    if negb (truthy apiKey) then (inr (Cli.ProcessExit 1), w)
    else
      match Cli.readFile fs inputFile with
      | inl _ => (inr (Cli.ProcessExit 1), w)
      | inr bytes =>
          (inr match openai w (chat_request model (Cli.finalPrompt (toString_utf8 bytes))) with
               | inl _ => Cli.ProcessExit 1
               | inr completion =>
                   match first_content completion with
                   | None => Cli.ProcessExit 1
                   | Some text =>
                       if forallb is_white_space text then Cli.ProcessExit 1
                       else
                         match Cli.mkdir_writeFile fs outputFile (trim text) with
                         | Some _ => Cli.ProcessExit 1
                         | None => Cli.Saved outputFile (trim text)
                         end
                   end
               end,
           w ++ [chat_request model (Cli.finalPrompt (toString_utf8 bytes))])
      end.
Proof.
  unfold Cli.processMarkdownAndAsk.
  destruct (negb (truthy apiKey)); [reflexivity|].
  destruct (Cli.readFile fs inputFile) as [e | bytes]; [reflexivity|].
  unfold run, bind, catch, ret; simpl. unfold create.
  fold (chat_request model (Cli.finalPrompt (toString_utf8 bytes))).
  destruct (openai w _) as [e | completion]; [reflexivity|].
  unfold responseContent_of; simpl.
  destruct (first_content completion) as [text|]; [|reflexivity].
  destruct (trim text) as [|c t] eqn:E.
  - apply trim_nil_iff in E. rewrite E. reflexivity.
  - assert (W : forallb is_white_space text = false).
    { destruct (forallb is_white_space text) eqn:W; [|reflexivity].
      apply trim_nil_iff in W. congruence. }
    rewrite W. destruct (Cli.mkdir_writeFile fs outputFile (c :: t)); reflexivity.
Qed.

(** X6: what a saved answer means.  If a run of the command-line program
    ends with the answer saved, then the API key was set, the input file was
    read, the provider was called exactly once, with the model as given and
    the prompt made of the decoded file, its first choice had a text, the
    saved text is that text trimmed and is not empty, it went to the output
    path given, and the write succeeded. *)
Theorem X6_cli_saved_answer (apiKey : option jsstring) (fs : Cli.FileSystem)
    (openai : Provider) (question inputFile outputFile model : jsstring)
    (w w' : World) (path text : jsstring) :
  run (Cli.processMarkdownAndAsk apiKey fs openai question inputFile outputFile model) w =
    (inr (Cli.Saved path text), w') ->
  path = outputFile /\ text <> [] /\ truthy apiKey = true /\
  Cli.mkdir_writeFile fs outputFile text = None /\
  exists bytes completion content,
    Cli.readFile fs inputFile = inr bytes /\
    w' = w ++ [chat_request model (Cli.finalPrompt (toString_utf8 bytes))] /\
    openai w (chat_request model (Cli.finalPrompt (toString_utf8 bytes))) = inr completion /\
    first_content completion = Some content /\
    text = trim content.
Proof.
  rewrite processMarkdownAndAsk_run.
  destruct (truthy apiKey) eqn:K; simpl; [|discriminate].
  destruct (Cli.readFile fs inputFile) as [e | bytes]; [discriminate|].
  destruct (openai w _) as [e | completion] eqn:P; [discriminate|].
  destruct (first_content completion) as [content|] eqn:C; [|discriminate].
  destruct (forallb is_white_space content) eqn:W; [discriminate|].
  destruct (Cli.mkdir_writeFile fs outputFile (trim content)) eqn:M; [discriminate|].
  intros E. injection E as <- <- <-.
  split; [reflexivity|]. split.
  { intros T. apply trim_nil_iff in T. congruence. }
  split; [reflexivity|]. split; [exact M|].
  exists bytes, completion, content.
  split; [reflexivity|]. split; [reflexivity|]. split; [exact P|].
  split; [exact C | reflexivity].
Qed.

Lemma X6_cli_saved_answer_witness :
  lit "out/answer.md" = lit "out/answer.md" /\
  trim (lit " It does X. ") <> [] /\
  truthy (Some (lit "sk-test")) = true /\
  Cli.mkdir_writeFile (fs_with document) (lit "out/answer.md") (trim (lit " It does X. ")) = None /\
  exists bytes completion content,
    Cli.readFile (fs_with document) (lit "in.md") = inr bytes /\
    [] ++ [chat_request [] (Cli.finalPrompt (toString_utf8 document))] =
      [] ++ [chat_request [] (Cli.finalPrompt (toString_utf8 bytes))] /\
    stub (lit " It does X. ") [] (chat_request [] (Cli.finalPrompt (toString_utf8 bytes))) =
      inr completion /\
    first_content completion = Some content /\
    trim (lit " It does X. ") = trim content.
Proof.
  apply (X6_cli_saved_answer (Some (lit "sk-test")) (fs_with document)
           (stub (lit " It does X. ")) what_does_this_do
           (lit "in.md") (lit "out/answer.md") [] [] _ _ _).
  rewrite processMarkdownAndAsk_run. reflexivity.
Defined.

(** X7: without an API key, or when the input file cannot be read, the
    command-line program exits with status 1 and the provider is not
    called. *)
Theorem X7_cli_exits_before_calling (apiKey : option jsstring) (fs : Cli.FileSystem)
    (openai : Provider) (question inputFile outputFile model : jsstring) (w : World) :
  truthy apiKey = false \/ (exists error, Cli.readFile fs inputFile = inl error) ->
  run (Cli.processMarkdownAndAsk apiKey fs openai question inputFile outputFile model) w =
    (inr (Cli.ProcessExit 1), w).
Proof.
  intros H. rewrite processMarkdownAndAsk_run.
  destruct (truthy apiKey); simpl; [|reflexivity].
  destruct H as [H | [error H]]; [discriminate|].
  rewrite H. reflexivity.
Qed.

Lemma X7_cli_exits_before_calling_witness :
  run (Cli.processMarkdownAndAsk (Some []) (fs_with document) (stub (lit "It does X."))
         what_does_this_do (lit "in.md") (lit "out.md") (lit "gpt-4")) [] =
    (inr (Cli.ProcessExit 1), []).
Proof.
  apply X7_cli_exits_before_calling. left. reflexivity.
Defined.

(** X8: when the provider rejects the call, or its response has no first
    text or a text that is empty or only whitespace, or the answer cannot be
    written, the command-line program exits with status 1 after its one
    call and reports no saved answer. *)
Theorem X8_cli_failure_after_call (apiKey : option jsstring) (fs : Cli.FileSystem)
    (openai : Provider) (question inputFile outputFile model : jsstring) (w : World)
    (bytes : list byte) :
  truthy apiKey = true ->
  Cli.readFile fs inputFile = inr bytes ->
  (exists error,
     openai w (chat_request model (Cli.finalPrompt (toString_utf8 bytes))) = inl error) \/
  (exists completion,
     openai w (chat_request model (Cli.finalPrompt (toString_utf8 bytes))) = inr completion /\
     (first_content completion = None \/
      exists text, first_content completion = Some text /\
                   (forallb is_white_space text = true \/
                    exists error, Cli.mkdir_writeFile fs outputFile (trim text) = Some error))) ->
  run (Cli.processMarkdownAndAsk apiKey fs openai question inputFile outputFile model) w =
    (inr (Cli.ProcessExit 1),
     w ++ [chat_request model (Cli.finalPrompt (toString_utf8 bytes))]).
Proof.
  intros K R H. rewrite processMarkdownAndAsk_run, K, R. simpl.
  destruct H as [[error P] | (completion & P & H)]; rewrite P; [reflexivity|].
  destruct H as [C | (text & C & H)]; rewrite C; [reflexivity|].
  destruct H as [W | [error M]].
  - rewrite W. reflexivity.
  - destruct (forallb is_white_space text); [reflexivity|]. rewrite M. reflexivity.
Qed.

Lemma X8_cli_failure_after_call_witness :
  run (Cli.processMarkdownAndAsk (Some (lit "sk-test")) (fs_with document)
         (settling (inl (Error (lit "401 Incorrect API key"))))
         what_does_this_do (lit "in.md") (lit "out.md") (lit "gpt-4")) [] =
    (inr (Cli.ProcessExit 1),
     [] ++ [chat_request (lit "gpt-4") (Cli.finalPrompt (toString_utf8 document))]).
Proof.
  apply (X8_cli_failure_after_call (Some (lit "sk-test")) (fs_with document)
           (settling (inl (Error (lit "401 Incorrect API key"))))
           what_does_this_do (lit "in.md") (lit "out.md") (lit "gpt-4") [] document).
  - reflexivity.
  - reflexivity.
  - left. exists (Error (lit "401 Incorrect API key")). reflexivity.
Defined.

(** X9: the two entry points read the provider's result alike.  For a
    provider that settles every call with the same result, the route
    answers a validated submission with status 200 and answer [t] exactly
    when the command-line program, with a key, a readable input and a
    writable output, saves [t]. *)
Theorem X9_cli_and_server_map_alike (result : JsError + Completion)
    (sub : Submission) (part : FilePart) (q : jsstring)
    (apiKey : option jsstring) (fs : Cli.FileSystem)
    (question inputFile outputFile model : jsstring) (bytes : list byte)
    (w1 w2 : World) (t : jsstring) :
  validated sub part q ->
  truthy apiKey = true ->
  Cli.readFile fs inputFile = inr bytes ->
  (forall text, Cli.mkdir_writeFile fs outputFile text = None) ->
  fst (run (post_ask (settling result) sub) w1) = inr (success t) <->
  fst (run (Cli.processMarkdownAndAsk apiKey fs (settling result)
              question inputFile outputFile model) w2) = inr (Cli.Saved outputFile t).
Proof.
  intros Hv K R M.
  rewrite (@post_ask_validated (settling result) sub part q w1 Hv). cbv zeta.
  rewrite processMarkdownAndAsk_run, K, R. simpl. unfold settling.
  destruct result as [error | completion].
  - split; intros E; inversion E.
  - destruct (first_content completion) as [text|].
    + destruct (forallb is_white_space text).
      * split; intros E; inversion E.
      * rewrite M. split; intros E; inversion E; reflexivity.
    + split; intros E; inversion E.
Qed.

Lemma X9_cli_and_server_map_alike_witness :
  fst (run (post_ask (settling (inr (completion_with (lit " It does X. "))))
              (submission (Some what_does_this_do) (Some (markdown_part document)))) []) =
    inr (success (lit "It does X.")) <->
  fst (run (Cli.processMarkdownAndAsk (Some (lit "sk-test")) (fs_with document)
              (settling (inr (completion_with (lit " It does X. "))))
              what_does_this_do (lit "in.md") (lit "out.md") (lit "gpt-4")) []) =
    inr (Cli.Saved (lit "out.md") (lit "It does X.")).
Proof.
  apply (X9_cli_and_server_map_alike (inr (completion_with (lit " It does X. ")))
           (submission (Some what_does_this_do) (Some (markdown_part document)))
           (markdown_part document) what_does_this_do
           (Some (lit "sk-test")) (fs_with document)
           what_does_this_do (lit "in.md") (lit "out.md") (lit "gpt-4") document
           [] [] (lit "It does X.") validated_sample).
  - reflexivity.
  - reflexivity.
  - intros text. reflexivity.
Defined.

(* ===================================================================== *)
(** ** Properties of the browser page *)
(* ===================================================================== *)

Import Browser Http.

(** A click that sends the form, outcome by outcome of [fetch]. *)
Lemma submitBtn_click_sends (fetch : Fetch) (page : Page) (w : World)
    (c : code_unit) (q : jsstring) (file : BrowserFile) (rest : list BrowserFile) :
  trim (questionInput_value page) = c :: q ->
  fileInput_files page = file :: rest ->
  run (submitBtn_click fetch page) w =
    (inr match fst (fetch (form_of page file) w) with
         | inl error => showing_error page (message error)
         | inr response =>
             if ok response then
               match fetch_json response with
               | inl error => showing_error page (message error)
               | inr result => showing_answer page (textContent_of (property result "answer"))
               end
             else
               showing_error page
                 match fetch_json response with
                 | inr object =>
                     or_else (property object "error")
                       (lit "HTTP 오류: " ++ Number_toString (fetch_status response))
                 | inl _ =>
                     lit "HTTP 오류: " ++ Number_toString (fetch_status response) ++
                     lit " " ++ fetch_statusText response
                 end
         end,
     snd (fetch (form_of page file) w)).
Proof.
  intros Hq Hf. unfold submitBtn_click, form_of. rewrite Hq, Hf. cbn [hd_error].
  rewrite <- Hq.
  unfold run, bind, catch, ret, raise. cbn [Monad_Async Exception_Async].
  destruct (fetch _ w) as [[error | response] w']; [reflexivity|]. cbn [fst snd].
  destruct (ok response); cbn [negb].
  - destruct (fetch_json response) as [error | result]; reflexivity.
  - destruct (fetch_json response) as [error | object]; [|reflexivity].
    assert (P : exists d s, lit "HTTP 오류: " = d :: s)
      by (vm_compute; eexists _, _; reflexivity).
    destruct P as (d & s & P).
    cbn [property String.eqb Ascii.eqb Bool.eqb]. rewrite P. reflexivity.
Qed.

(** A click without a usable question, and a click without a file: nothing
    is sent. *)
Lemma submitBtn_click_refuses (fetch : Fetch) (page : Page) (w : World) :
  trim (questionInput_value page) = [] \/ fileInput_files page = [] ->
  run (submitBtn_click fetch page) w =
    (inr (showStatus page
            (if forallb is_white_space (questionInput_value page)
             then lit "질문을 입력해주세요."
             else lit "마크다운 또는 텍스트 파일을 선택해주세요.")
            (lit "error")),
     w).
Proof.
  intros H. unfold submitBtn_click.
  destruct (trim (questionInput_value page)) as [|c q] eqn:Hq.
  - apply trim_nil_iff in Hq. rewrite Hq. reflexivity.
  - destruct H as [H | H]; [discriminate|]. rewrite H. cbn [hd_error].
    assert (W : forallb is_white_space (questionInput_value page) = false).
    { destruct (forallb is_white_space (questionInput_value page)) eqn:W; [|reflexivity].
      apply trim_nil_iff in W. congruence. }
    rewrite W. reflexivity.
Qed.

(** The two class names after a click. *)
Lemma status_class_error : lit "status-message " ++ lit "error" = lit "status-message error".
Proof. vm_compute. reflexivity. Qed.

(** X10: a click always settles the page and never throws, whatever
    [fetch] does.  The inputs and the file name stay as they were; the
    button ends enabled, or as it was when nothing was sent; and the status
    ends in the class [error] or, with the button enabled, in the class
    [success], never in the class [loading]. *)
Theorem X10_click_settles_the_page (fetch : Fetch) (page : Page) (w : World) :
  exists (page' : Page) (w' : World),
    run (submitBtn_click fetch page) w = (inr page', w') /\
    questionInput_value page' = questionInput_value page /\
    fileInput_files page' = fileInput_files page /\
    fileName_textContent page' = fileName_textContent page /\
    modelSelect_value page' = modelSelect_value page /\
    (submitBtn_disabled page' = false \/
     (submitBtn_disabled page' = submitBtn_disabled page /\ w' = w)) /\
    (status_className page' = lit "status-message error" \/
     (status_className page' = lit "status-message success" /\
      submitBtn_disabled page' = false)).
Proof.
  destruct (trim (questionInput_value page)) as [|c q] eqn:Hq.
  { rewrite (submitBtn_click_refuses fetch page w (or_introl Hq)).
    eexists _, _. split; [reflexivity|]. repeat (split; [reflexivity|]).
    split; [right; split; reflexivity|]. left. apply status_class_error. }
  destruct (fileInput_files page) as [|file rest] eqn:Hf.
  { rewrite (submitBtn_click_refuses fetch page w (or_intror Hf)).
    eexists _, _. split; [reflexivity|]. cbn [showStatus questionInput_value
      fileInput_files fileName_textContent modelSelect_value submitBtn_disabled
      status_className].
    repeat (split; [first [reflexivity | exact Hf]|]).
    split; [right; split; reflexivity|]. left. apply status_class_error. }
  rewrite (submitBtn_click_sends fetch page w c q file rest Hq Hf).
  assert (Herr : forall reason,
            questionInput_value (showing_error page reason) = questionInput_value page /\
            fileInput_files (showing_error page reason) = file :: rest /\
            fileName_textContent (showing_error page reason) = fileName_textContent page /\
            modelSelect_value (showing_error page reason) = modelSelect_value page /\
            (submitBtn_disabled (showing_error page reason) = false \/
             (submitBtn_disabled (showing_error page reason) = submitBtn_disabled page /\
              snd (fetch (form_of page file) w) = w)) /\
            (status_className (showing_error page reason) = lit "status-message error" \/
             (status_className (showing_error page reason) = lit "status-message success" /\
              submitBtn_disabled (showing_error page reason) = false))).
  { intros reason. unfold showing_error.
    cbn [questionInput_value fileInput_files fileName_textContent modelSelect_value
         submitBtn_disabled status_className].
    repeat (split; [first [reflexivity | exact Hf]|]). split; left; reflexivity. }
  eexists _, _. split; [reflexivity|].
  destruct (fst (fetch (form_of page file) w)) as [error | response]; [apply Herr|].
  destruct (ok response); [|apply Herr].
  destruct (fetch_json response) as [error | result]; [apply Herr|].
  unfold showing_answer.
  cbn [questionInput_value fileInput_files fileName_textContent modelSelect_value
       submitBtn_disabled status_className].
  repeat (split; [first [reflexivity | exact Hf]|]).
  split; [left; reflexivity | right; split; reflexivity].
Qed.

(** X11: a question that is empty or only whitespace, or no chosen file:
    the click sends nothing.  Whatever [fetch] would do, the page only gets
    the message asking for a question (when the question is blank) or for a
    file, in the class [error]; the output and the button are untouched. *)
Theorem X11_click_sends_nothing (fetch : Fetch) (page : Page) (w : World) :
  forallb is_white_space (questionInput_value page) = true \/
  fileInput_files page = [] ->
  run (submitBtn_click fetch page) w =
    (inr {| questionInput_value := questionInput_value page;
            fileInput_files := fileInput_files page;
            fileName_textContent := fileName_textContent page;
            modelSelect_value := modelSelect_value page;
            submitBtn_disabled := submitBtn_disabled page;
            status_textContent :=
              if forallb is_white_space (questionInput_value page)
              then lit "질문을 입력해주세요."
              else lit "마크다운 또는 텍스트 파일을 선택해주세요.";
            status_className := lit "status-message error";
            outputArea_textContent := outputArea_textContent page |},
     w).
Proof.
  intros H. rewrite submitBtn_click_refuses.
  - unfold showStatus. rewrite status_class_error. reflexivity.
  - destruct H as [H | H]; [left; apply trim_nil_iff; exact H | right; exact H].
Qed.

Lemma X11_click_sends_nothing_witness :
  run (submitBtn_click (fetch_ask no_statusText (stub (lit "It does X.")))
         (page_with (lit "  ") [notes_md])) [] =
    (inr {| questionInput_value := lit "  ";
            fileInput_files := [notes_md];
            fileName_textContent := lit "선택된 파일 없음";
            modelSelect_value := lit "gpt-4";
            submitBtn_disabled := false;
            status_textContent :=
              if forallb is_white_space (lit "  ")
              then lit "질문을 입력해주세요."
              else lit "마크다운 또는 텍스트 파일을 선택해주세요.";
            status_className := lit "status-message error";
            outputArea_textContent := lit "an earlier answer" |},
     []).
Proof.
  apply (X11_click_sends_nothing (fetch_ask no_statusText (stub (lit "It does X.")))
           (page_with (lit "  ") [notes_md]) []).
  left. vm_compute. reflexivity.
Defined.

(** X12: how a failed request is shown.  After a click that sends the
    form, the page ends with the output empty, the button enabled and the
    status "오류 발생: " followed by: (1) the error's message when [fetch]
    rejects; (2) the [error] property of the body when the response is not
    ok and its JSON body has a non-empty one; (3) "HTTP 오류: " and the
    status code when the JSON body has none; (4) "HTTP 오류: ", the code, a
    space and the status text when the body is not JSON. *)
Theorem X12_click_shows_the_failure (fetch : Fetch) (page : Page) (w w' : World)
    (c : code_unit) (q : jsstring) (file : BrowserFile) (rest : list BrowserFile) :
  trim (questionInput_value page) = c :: q ->
  fileInput_files page = file :: rest ->
  (forall error,
     fetch (form_of page file) w = (inl error, w') ->
     run (submitBtn_click fetch page) w = (inr (showing_error page (message error)), w')) /\
  (forall response object d m,
     fetch (form_of page file) w = (inr response, w') ->
     ok response = false ->
     fetch_json response = inr object ->
     property object "error" = Some (d :: m) ->
     run (submitBtn_click fetch page) w = (inr (showing_error page (d :: m)), w')) /\
  (forall response object,
     fetch (form_of page file) w = (inr response, w') ->
     ok response = false ->
     fetch_json response = inr object ->
     property object "error" = None \/ property object "error" = Some [] ->
     run (submitBtn_click fetch page) w =
       (inr (showing_error page
               (lit "HTTP 오류: " ++ Number_toString (fetch_status response))), w')) /\
  (forall response error,
     fetch (form_of page file) w = (inr response, w') ->
     ok response = false ->
     fetch_json response = inl error ->
     run (submitBtn_click fetch page) w =
       (inr (showing_error page
               (lit "HTTP 오류: " ++ Number_toString (fetch_status response) ++
                lit " " ++ fetch_statusText response)), w')).
Proof.
  intros Hq Hf. pose proof (submitBtn_click_sends fetch page w c q file rest Hq Hf) as R.
  split; [|split; [|split]].
  - intros error E. rewrite R, E. reflexivity.
  - intros response object d m E Hok Hj He. rewrite R, E. cbn [fst snd].
    rewrite Hok, Hj, He. reflexivity.
  - intros response object E Hok Hj He. rewrite R, E. cbn [fst snd].
    rewrite Hok, Hj. destruct He as [-> | ->]; reflexivity.
  - intros response error E Hok Hj. rewrite R, E. cbn [fst snd].
    rewrite Hok, Hj. reflexivity.
Qed.

Lemma X12_click_shows_the_failure_witness :
  run (submitBtn_click (fetch_rejecting (Error (lit "Failed to fetch")))
         (page_with what_does_this_do [notes_md])) [] =
    (inr (showing_error (page_with what_does_this_do [notes_md]) (lit "Failed to fetch")), []) /\
  run (submitBtn_click
         (fetch_resolving {| fetch_status := 502;
                             fetch_statusText := lit "Bad Gateway";
                             fetch_json := inl (Error (lit "Unexpected token <")) |})
         (page_with what_does_this_do [notes_md])) [] =
    (inr (showing_error (page_with what_does_this_do [notes_md])
            (lit "HTTP 오류: " ++ Number_toString 502 ++ lit " " ++ lit "Bad Gateway")), []).
Proof.
  assert (Hq : trim (questionInput_value (page_with what_does_this_do [notes_md])) =
               87 :: tl what_does_this_do) by (vm_compute; reflexivity).
  split.
  - apply (proj1 (X12_click_shows_the_failure
                    (fetch_rejecting (Error (lit "Failed to fetch")))
                    (page_with what_does_this_do [notes_md]) [] [] _ _ notes_md [] Hq eq_refl)
             (Error (lit "Failed to fetch"))).
    reflexivity.
  - apply (proj2 (proj2 (proj2 (X12_click_shows_the_failure
                    (fetch_resolving {| fetch_status := 502;
                                        fetch_statusText := lit "Bad Gateway";
                                        fetch_json := inl (Error (lit "Unexpected token <")) |})
                    (page_with what_does_this_do [notes_md]) [] [] _ _ notes_md [] Hq eq_refl)))
             {| fetch_status := 502;
                fetch_statusText := lit "Bad Gateway";
                fetch_json := inl (Error (lit "Unexpected token <")) |}
             (Error (lit "Unexpected token <"))).
    + reflexivity.
    + reflexivity.
    + reflexivity.
Defined.

(* ===================================================================== *)
(** ** The page and the server together *)
(* ===================================================================== *)

(** The submission that the server reads from the form of a click. *)
Lemma submission_of_form (page : Page) (file : BrowserFile) :
  submission_of (form_of page file) =
    {| question_field := Some (trim (questionInput_value page));
       model_field := Some (modelSelect_value page);
       markdownFile :=
         Some {| part_originalname := file_name file;
                 part_mimetype :=
                   match file_type file with
                   | [] => lit "application/octet-stream"
                   | _ :: _ => file_type file
                   end;
                 part_data := file_bytes file |} |}.
Proof. reflexivity. Qed.

(** What the page shows for each of the server's three response shapes. *)
Lemma click_shows_server_response (statusText_of : N -> jsstring) (openai : Provider)
    (page : Page) (w w' : World) (c : code_unit) (q : jsstring)
    (file : BrowserFile) (rest : list BrowserFile) (response : Response) :
  trim (questionInput_value page) = c :: q ->
  fileInput_files page = file :: rest ->
  run (post_ask openai (submission_of (form_of page file))) w = (inr response, w') ->
  (forall a, response = success a ->
     run (submitBtn_click (fetch_ask statusText_of openai) page) w =
       (inr (showing_answer page a), w')) /\
  (forall m, m <> [] -> response = client_fault m \/ response = server_fault m ->
     run (submitBtn_click (fetch_ask statusText_of openai) page) w =
       (inr (showing_error page m), w')).
Proof.
  intros Hq Hf Hrun.
  rewrite (submitBtn_click_sends (fetch_ask statusText_of openai) page w c q file rest Hq Hf).
  unfold fetch_ask. unfold run in Hrun. unfold bind, ret. cbn [Monad_Async].
  rewrite Hrun. cbn [fst snd]. split.
  - intros a ->. reflexivity.
  - intros m Hm [-> | ->]; (destruct m; [congruence | reflexivity]).
Qed.

(** The file part that the server reads for a chosen file. *)
Lemma part_of_typed_file (page : Page) (file : BrowserFile) (part : FilePart) :
  markdownFile (submission_of (form_of page file)) = Some part ->
  part_originalname part = file_name file /\
  part_data part = file_bytes file /\
  (accepted_type part <->
   file_type file = lit "text/markdown" \/ file_type file = lit "text/plain").
Proof.
  rewrite submission_of_form. cbn [markdownFile]. intros E. injection E as <-.
  cbn [part_originalname part_data]. split; [reflexivity|]. split; [reflexivity|].
  unfold accepted_type. cbn [part_mimetype].
  destruct (file_type file) as [|d t]; [|tauto].
  split; intros [H | H]; vm_compute in H; discriminate.
Qed.

Lemma validated_form (page : Page) (file : BrowserFile) (c : code_unit) (q : jsstring) :
  trim (questionInput_value page) = c :: q ->
  file_type file = lit "text/markdown" \/ file_type file = lit "text/plain" ->
  N.of_nat (List.length (file_bytes file)) <= 104857600 ->
  exists part,
    part_data part = file_bytes file /\
    validated (submission_of (form_of page file)) part (c :: q).
Proof.
  intros Hq Ht Hs. rewrite submission_of_form. eexists. split; [|split].
  2: { cbn [question_field]. rewrite Hq. reflexivity. }
  2: { split; [discriminate|]. split; [reflexivity|]. split.
       - apply (part_of_typed_file page file _ eq_refl). exact Ht.
       - exact Hs. }
  reflexivity.
Qed.

(** X13: the page shows what the server says.  For every click that sends
    the form, the server answers, and the page ends either with the
    server's answer in the output and the status of success, or with
    "오류 발생: " and the server's own error message and an empty output.
    The page's fallback texts for a response without a JSON error are never
    shown against this server. *)
Theorem X13_page_shows_server_response (statusText_of : N -> jsstring)
    (openai : Provider) (page : Page) (w : World)
    (c : code_unit) (q : jsstring) (file : BrowserFile) (rest : list BrowserFile) :
  trim (questionInput_value page) = c :: q ->
  fileInput_files page = file :: rest ->
  exists (response : Response) (w' : World),
    run (post_ask openai (submission_of (form_of page file))) w = (inr response, w') /\
    ((exists a,
        response = {| status := 200; body := [("answer"%string, a)] |} /\
        run (submitBtn_click (fetch_ask statusText_of openai) page) w =
          (inr (showing_answer page a), w')) \/
     (exists m,
        (response = {| status := 400; body := [("error"%string, m)] |} \/
         response = {| status := 500; body := [("error"%string, m)] |}) /\
        run (submitBtn_click (fetch_ask statusText_of openai) page) w =
          (inr (showing_error page m), w'))).
Proof.
  intros Hq Hf.
  pose proof (fun response w' =>
                click_shows_server_response statusText_of openai page w w' c q file rest
                  response Hq Hf) as Show.
  assert (P : lit "처리 중 오류 발생: " <> []) by (vm_compute; discriminate).
  destruct (post_ask_cases openai (submission_of (form_of page file)) w)
    as [[R _] | [[R _] | [[R _] | [[R _] | (part & q' & _ & R)]]]].
  1-4: eexists _, _; (split; [exact R|]); right; eexists; (split; [left; reflexivity|]);
       apply (proj2 (Show _ _ R)); [vm_compute; discriminate | left; reflexivity].
  destruct (openai w _) as [error | completion].
  - eexists _, _. split; [exact R|]. right. eexists. split; [right; reflexivity|].
    apply (proj2 (Show _ _ R)); [apply prefixed_nonempty; exact P | right; reflexivity].
  - destruct (first_content completion) as [text|].
    + destruct (forallb is_white_space text).
      * eexists _, _. split; [exact R|]. right. eexists. split; [right; reflexivity|].
        apply (proj2 (Show _ _ R)); [vm_compute; discriminate | right; reflexivity].
      * eexists _, _. split; [exact R|]. left. eexists. split; [reflexivity|].
        apply (proj1 (Show _ _ R)). reflexivity.
    + eexists _, _. split; [exact R|]. right. eexists. split; [right; reflexivity|].
      apply (proj2 (Show _ _ R)); [vm_compute; discriminate | right; reflexivity].
Qed.

Lemma X13_page_shows_server_response_witness :
  exists (response : Response) (w' : World),
    run (post_ask (stub (lit "It does X."))
           (submission_of (form_of (page_with what_does_this_do [notes_md]) notes_md))) [] =
      (inr response, w') /\
    ((exists a,
        response = {| status := 200; body := [("answer"%string, a)] |} /\
        run (submitBtn_click (fetch_ask no_statusText (stub (lit "It does X.")))
               (page_with what_does_this_do [notes_md])) [] =
          (inr (showing_answer (page_with what_does_this_do [notes_md]) a), w')) \/
     (exists m,
        (response = {| status := 400; body := [("error"%string, m)] |} \/
         response = {| status := 500; body := [("error"%string, m)] |}) /\
        run (submitBtn_click (fetch_ask no_statusText (stub (lit "It does X.")))
               (page_with what_does_this_do [notes_md])) [] =
          (inr (showing_error (page_with what_does_this_do [notes_md]) m), w'))).
Proof.
  apply (X13_page_shows_server_response no_statusText (stub (lit "It does X."))
           (page_with what_does_this_do [notes_md]) []
           87 (tl what_does_this_do) notes_md []).
  - vm_compute. reflexivity.
  - reflexivity.
Defined.

(** X14: through the page, the provider is only asked trimmed questions.
    If a click leads to a provider call, then a file of type
    [text/markdown] or [text/plain] within the size ceiling was chosen, the
    typed question has a code unit that is not whitespace, and the one call
    made carries the selected model (the default when the selection is the
    empty string) and the prompt made of the decoded file and the question
    trimmed. *)
Theorem X14_page_asks_trimmed_questions (statusText_of : N -> jsstring)
    (openai : Provider) (page : Page) (w : World) :
  snd (run (submitBtn_click (fetch_ask statusText_of openai) page) w) <> w ->
  exists file rest,
    fileInput_files page = file :: rest /\
    forallb is_white_space (questionInput_value page) = false /\
    (file_type file = lit "text/markdown" \/ file_type file = lit "text/plain") /\
    N.of_nat (List.length (file_bytes file)) <= 104857600 /\
    snd (run (submitBtn_click (fetch_ask statusText_of openai) page) w) =
      w ++ [chat_request (or_else (Some (modelSelect_value page)) (lit "gpt-3.5-turbo"))
              (finalPrompt (toString_utf8 (file_bytes file))
                           (trim (questionInput_value page)))].
Proof.
  destruct (trim (questionInput_value page)) as [|c q] eqn:Hq.
  { rewrite (submitBtn_click_refuses _ page w (or_introl Hq)). intros H; exfalso; apply H.
    reflexivity. }
  destruct (fileInput_files page) as [|file rest] eqn:Hf.
  { rewrite (submitBtn_click_refuses _ page w (or_intror Hf)). intros H; exfalso; apply H.
    reflexivity. }
  rewrite (submitBtn_click_sends _ page w c q file rest Hq Hf). cbn [snd].
  unfold fetch_ask, bind, ret. cbn [Monad_Async].
  assert (W : forallb is_white_space (questionInput_value page) = false).
  { destruct (forallb is_white_space (questionInput_value page)) eqn:W; [|reflexivity].
    apply trim_nil_iff in W. congruence. }
  destruct (post_ask_cases openai (submission_of (form_of page file)) w)
    as [[R _] | [[R _] | [[R _] | [[R _] | (part & q' & Hv & R)]]]];
    unfold run in R; rewrite R; cbn [snd];
    try (intros H; exfalso; apply H; reflexivity).
  intros _. exists file, rest. split; [reflexivity|]. split; [exact W|].
  destruct Hv as (Hqf & _ & Hmf & Ht & Hs).
  destruct (part_of_typed_file page file part Hmf) as (_ & Hd & Hty).
  split; [apply Hty; exact Ht|]. split.
  - unfold byte_length in Hs. rewrite Hd in Hs. exact Hs.
  - rewrite submission_of_form in Hqf. cbn [question_field] in Hqf.
    injection Hqf as <-. rewrite Hd, Hq. reflexivity.
Qed.

Lemma X14_page_asks_trimmed_questions_witness :
  exists file rest,
    fileInput_files (page_with (lit "  What does this do? ") [notes_md]) = file :: rest /\
    forallb is_white_space (lit "  What does this do? ") = false /\
    (file_type file = lit "text/markdown" \/ file_type file = lit "text/plain") /\
    N.of_nat (List.length (file_bytes file)) <= 104857600 /\
    snd (run (submitBtn_click (fetch_ask no_statusText (stub (lit "It does X.")))
                (page_with (lit "  What does this do? ") [notes_md])) []) =
      [] ++ [chat_request (or_else (Some (lit "gpt-4")) (lit "gpt-3.5-turbo"))
               (finalPrompt (toString_utf8 (file_bytes file))
                            (trim (lit "  What does this do? ")))].
Proof.
  apply (X14_page_asks_trimmed_questions no_statusText (stub (lit "It does X."))
           (page_with (lit "  What does this do? ") [notes_md]) []).
  vm_compute. discriminate.
Defined.

(** X15: from the click to the answer.  With a question that has a code
    unit other than whitespace, a first chosen file of type [text/markdown]
    or [text/plain] within the size ceiling, and a provider that returns a
    first text that is not blank, the click makes exactly one provider call
    and the page ends with that text trimmed in the output, the status of
    success and the button enabled. *)
Theorem X15_click_to_answer (statusText_of : N -> jsstring) (openai : Provider)
    (page : Page) (w : World) (c : code_unit) (q : jsstring)
    (file : BrowserFile) (rest : list BrowserFile)
    (completion : Completion) (text : jsstring) :
  trim (questionInput_value page) = c :: q ->
  fileInput_files page = file :: rest ->
  file_type file = lit "text/markdown" \/ file_type file = lit "text/plain" ->
  N.of_nat (List.length (file_bytes file)) <= 104857600 ->
  openai w (chat_request (or_else (Some (modelSelect_value page)) (lit "gpt-3.5-turbo"))
              (finalPrompt (toString_utf8 (file_bytes file)) (c :: q))) = inr completion ->
  first_content completion = Some text ->
  forallb is_white_space text = false ->
  run (submitBtn_click (fetch_ask statusText_of openai) page) w =
    (inr (showing_answer page (trim text)),
     w ++ [chat_request (or_else (Some (modelSelect_value page)) (lit "gpt-3.5-turbo"))
             (finalPrompt (toString_utf8 (file_bytes file)) (c :: q))]).
Proof.
  intros Hq Hf Ht Hs Hp Hc Hw.
  destruct (validated_form page file c q Hq Ht Hs) as (part & Hd & Hv).
  pose proof (@post_ask_validated openai _ part (c :: q) w Hv) as R. cbv zeta in R.
  rewrite Hd in R. rewrite submission_of_form in R at 2 3. cbn [model_field] in R.
  rewrite Hp, Hc, Hw in R.
  apply (proj1 (click_shows_server_response statusText_of openai page w _ c q file rest
                  _ Hq Hf R)).
  reflexivity.
Qed.

Lemma X15_click_to_answer_witness :
  run (submitBtn_click (fetch_ask no_statusText (stub (lit " It does X. ")))
         (page_with (lit "  What does this do? ") [notes_md])) [] =
    (inr (showing_answer (page_with (lit "  What does this do? ") [notes_md])
            (trim (lit " It does X. "))),
     [] ++ [chat_request (or_else (Some (lit "gpt-4")) (lit "gpt-3.5-turbo"))
              (finalPrompt (toString_utf8 document) what_does_this_do)]).
Proof.
  apply (X15_click_to_answer no_statusText (stub (lit " It does X. "))
           (page_with (lit "  What does this do? ") [notes_md]) []
           87 (tl what_does_this_do) notes_md []
           (completion_with (lit " It does X. ")) (lit " It does X. ")).
  - vm_compute. reflexivity.
  - reflexivity.
  - left. reflexivity.
  - vm_compute. discriminate.
  - reflexivity.
  - reflexivity.
  - vm_compute. reflexivity.
Defined.

(** X16: a chosen file whose type, as the browser reports it, is not
    [text/markdown] and not [text/plain] (also a file with no type at all)
    is refused: the page ends with "오류 발생: " and the server's sentence
    that only Markdown or Text files may be uploaded, and the provider is
    not called. *)
Theorem X16_untyped_file_is_refused (statusText_of : N -> jsstring) (openai : Provider)
    (page : Page) (w : World) (c : code_unit) (q : jsstring)
    (file : BrowserFile) (rest : list BrowserFile) :
  trim (questionInput_value page) = c :: q ->
  fileInput_files page = file :: rest ->
  file_type file <> lit "text/markdown" ->
  file_type file <> lit "text/plain" ->
  run (submitBtn_click (fetch_ask statusText_of openai) page) w =
    (inr (showing_error page (lit "Markdown(.md) 또는 Text(.txt) 파일만 업로드 가능합니다.")),
     w).
Proof.
  intros Hq Hf H1 H2.
  assert (R : run (post_ask openai (submission_of (form_of page file))) w =
              (inr (client_fault (lit "Markdown(.md) 또는 Text(.txt) 파일만 업로드 가능합니다.")),
               w)).
  { pose (part := {| part_originalname := file_name file;
                     part_mimetype :=
                       match file_type file with
                       | [] => lit "application/octet-stream"
                       | _ :: _ => file_type file
                       end;
                     part_data := file_bytes file |}).
    apply (post_ask_rejected_type openai (submission_of (form_of page file)) part w eq_refl).
    intros Ha. apply (part_of_typed_file page file part eq_refl) in Ha.
    destruct Ha as [E | E]; contradiction. }
  apply (proj2 (click_shows_server_response statusText_of openai page w _ c q file rest
                  _ Hq Hf R)).
  - vm_compute. discriminate.
  - left. reflexivity.
Qed.

Lemma X16_untyped_file_is_refused_witness :
  run (submitBtn_click (fetch_ask no_statusText (stub (lit "It does X.")))
         (page_with what_does_this_do [notes_untyped])) [] =
    (inr (showing_error (page_with what_does_this_do [notes_untyped])
            (lit "Markdown(.md) 또는 Text(.txt) 파일만 업로드 가능합니다.")),
     []).
Proof.
  apply (X16_untyped_file_is_refused no_statusText (stub (lit "It does X."))
           (page_with what_does_this_do [notes_untyped]) []
           87 (tl what_does_this_do) notes_untyped []).
  - vm_compute. reflexivity.
  - reflexivity.
  - vm_compute. discriminate.
  - vm_compute. discriminate.
Defined.
